(** * USALivingGuide: the prompt-orchestration and AI-access layer of app.py

    A shallow embedding of the credential provider ([get_access_token]),
    the inference client ([call_vertex]), the reference content cache
    ([_fetch_blog], [get_context]), the fallback responder
    ([local_fallback_reply]) and the entry point [llm] with its output
    sanitization, followed by the properties of the specification.

    Conventions.
    - A Python [str] is a sequence of Unicode code points: [list Z], one
      element per character, [ord c] being the element itself.
    - Time stamps ([time.time()]) are whole numbers of seconds in [Z].
      The sum of a time stamp and a lifetime is taken as exact, which
      it is in the code while both stay below [2 ^ 53]; a lifetime too
      large for a float makes the sum raise, as in the code.
    - Each function runs to its end before the next one starts: the
      interleaving of the refresh thread with requests is not modelled.
    - The two module-level dicts [_token_cache] and [_cache] have fixed
      keys and are records; every function takes the store it reads and
      returns the store it leaves.
    - Whatever the network answers is an argument of the function that
      asks: the requests a function issues are returned as a trace. *)

From Stdlib Require Import ZArith List Bool Lia String Ascii.
Import ListNotations.
Open Scope Z_scope.

(* ------------------------------------------------------------------ *)
(** ** Strings *)

Module Str.

Definition str := list Z.

(** An ASCII literal as a Python string. *)
Definition lit (s : string) : str :=
  map (fun a => Z.of_N (N_of_ascii a)) (list_ascii_of_string s).

Definition eqb (a b : str) : bool :=
  if list_eq_dec Z.eq_dec a b then true else false.

(** Truth value of a string: [if s] holds for a non-empty one. *)
Definition truthy (s : str) : bool :=
  match s with [] => false | _ :: _ => true end.

(** [c.isspace()], the characters [str.strip()] removes. *)
Definition isspace (c : Z) : bool :=
  ((9 <=? c) && (c <=? 13)) || ((28 <=? c) && (c <=? 32))
  || (c =? 133) || (c =? 160) || (c =? 5760)
  || ((8192 <=? c) && (c <=? 8202))
  || (c =? 8232) || (c =? 8233) || (c =? 8239) || (c =? 8287)
  || (c =? 12288).

(** The line boundaries of [str.splitlines()]; CR LF counts once. *)
Definition islinebreak (c : Z) : bool :=
  ((10 <=? c) && (c <=? 13)) || ((28 <=? c) && (c <=? 30))
  || (c =? 133) || (c =? 8232) || (c =? 8233).

Fixpoint dropwhile (p : Z -> bool) (s : str) : str :=
  match s with
  | [] => []
  | c :: r => if p c then dropwhile p r else s
  end.

Definition lstrip (s : str) : str := dropwhile isspace s.
Definition rstrip (s : str) : str := rev (dropwhile isspace (rev s)).

(** [s.strip()] *)
Definition strip (s : str) : str := rstrip (lstrip s).

(** [s.replace('**', '')]: occurrences are found from the left and do
    not overlap. *)
Fixpoint replace_stars (s : str) : str :=
  match s with
  | [] => []
  | c :: r =>
      match r with
      | [] => [c]
      | d :: r' =>
          if (c =? 42) && (d =? 42) then replace_stars r'
          else c :: replace_stars r
      end
  end.

(** [s.splitlines()]; [cur] is the line being read, last character
    first. *)
Fixpoint splitlines_from (cur : str) (s : str) : list str :=
  match s with
  | [] => match cur with [] => [] | _ :: _ => [rev cur] end
  | c :: r =>
      if islinebreak c then
        rev cur ::
          match r with
          | d :: r' =>
              if (c =? 13) && (d =? 10) then splitlines_from [] r'
              else splitlines_from [] r
          | [] => splitlines_from [] r
          end
      else splitlines_from (c :: cur) r
  end.

Definition splitlines (s : str) : list str := splitlines_from [] s.

(** ["\n".join(ls)] *)
Fixpoint join_nl (ls : list str) : str :=
  match ls with
  | [] => []
  | [l] => l
  | l :: rest => l ++ 10 :: join_nl rest
  end.

(** [s[:n]] for a non-negative [n]. *)
Definition prefix (n : Z) (s : str) : str := firstn (Z.to_nat n) s.

(** [sub in s] *)
Definition contains (sub s : str) : Prop :=
  exists pre post, s = pre ++ sub ++ post.

(** [s.startswith(p)] *)
Definition startswith (p s : str) : Prop := exists post, s = p ++ post.

(** [s.endswith(p)] *)
Definition endswith (p s : str) : Prop := exists pre, s = pre ++ p.

(** Two asterisks side by side somewhere in [s]. *)
Fixpoint has_stars (s : str) : bool :=
  match s with
  | [] => false
  | c :: r =>
      match r with
      | [] => false
      | d :: _ => ((c =? 42) && (d =? 42)) || has_stars r
      end
  end.

End Str.
Import Str.

(* ------------------------------------------------------------------ *)
(** ** Exceptions and Python values *)

(** A computation inside a [try] block: a value, or an exception that
    the enclosing [except Exception] will see. *)
Inductive exc (A : Type) : Type :=
| Ret (a : A)
| Raise.
Arguments Ret {A} a.
Arguments Raise {A}.

Definition bind {A B : Type} (m : exc A) (k : A -> exc B) : exc B :=
  match m with
  | Ret a => k a
  | Raise => Raise
  end.

Notation "x <- m ;; k" := (bind m (fun x => k))
  (at level 100, m at next level, right associativity).

(** The values [r.json()] hands to the program (JSON numbers with a
    fraction are left out). *)
#[local] Set Warnings "-register-all".
Inductive pyval : Type :=
| PNone
| PBool (b : bool)
| PInt (n : Z)
| PStr (s : str)
| PList (l : list pyval)
| PDict (items : list (str * pyval)).

(** Truth value of a Python value, as [if v] and [v and ...] take it. *)
Definition py_truthy (v : pyval) : bool :=
  match v with
  | PNone => false
  | PBool b => b
  | PInt n => negb (n =? 0)
  | PStr s => truthy s
  | PList l => match l with [] => false | _ => true end
  | PDict items => match items with [] => false | _ => true end
  end.

Definition is_str (v : pyval) : Prop := exists s, v = PStr s.

Definition empty_str : pyval := PStr [].

(* ------------------------------------------------------------------ *)
(** ** Environment, network and stores *)

(** [os.environ], as far as the program reads it. *)
Record environ : Type := {
  env_GOOGLE_CLOUD_PROJECT : option str;
  env_GCP_PROJECT : option str;
  env_VERTEX_LOCATION : option str;
  env_GEMINI_MODEL : option str;
  env_GOOGLE_OAUTH_ACCESS_TOKEN : option str
}.

(** [a or b] on two results of [os.environ.get]. *)
Definition opt_or (a b : option str) : option str :=
  match a with
  | Some s => if truthy s then a else b
  | None => b
  end.

Definition opt_truthy (a : option str) : bool :=
  match a with
  | Some s => truthy s
  | None => false
  end.

Definition get_default (a : option str) (d : str) : str :=
  match a with
  | Some s => s
  | None => d
  end.

Definition GOOGLE_CLOUD_PROJECT (env : environ) : option str :=
  opt_or (env_GOOGLE_CLOUD_PROJECT env) (env_GCP_PROJECT env).

Definition VERTEX_LOCATION (env : environ) : str :=
  get_default (env_VERTEX_LOCATION env) (lit "us-central1").

Definition GEMINI_MODEL (env : environ) : str :=
  get_default (env_GEMINI_MODEL env) (lit "gemini-1.5-flash").

(** The requests the program issues. *)
Inductive request : Type :=
| GetMetadata (url : str)
| PostVertex (endpoint : str) (prompt : str)
| GetBlog (url : str).

(** The body of a metadata response as the program reads it.
    [access_token] is the value under that key, if the key is there;
    [expires_in] is [None] when the key is missing and otherwise what
    [int(...)] makes of the value: an integer, or an exception (null, a
    list, text that is not a number). *)
Inductive metadata_json : Type :=
| BadJson                     (* r.json() raises *)
| NotDict                     (* the document has no .get *)
| Dict (access_token : option pyval) (expires_in : option (exc Z)).

Inductive metadata_reply : Type :=
| MetadataRaises
| MetadataResponse (ok : bool) (body : metadata_json).

(** The answer of the model endpoint; [text] is what
    [r.json()['candidates'][0]['content']['parts'][0]['text']] evaluates
    to, an exception when the document is malformed or shaped
    otherwise. *)
Inductive vertex_reply : Type :=
| VertexRaises
| VertexResponse (ok : bool) (text : exc pyval).

(** The answer of the blog for one URL; [posts] holds the text of every
    block [soup.find_all] selects, in order, an exception when parsing
    raises. *)
Inductive blog_reply : Type :=
| BlogRaises
| BlogResponse (ok : bool) (posts : exc (list str)).

(** [_token_cache = {'value': '', 'expires_at': 0}] *)
Record token_cache : Type := {
  value : pyval;
  expires_at : Z
}.

Definition token_cache_init : token_cache :=
  {| value := empty_str; expires_at := 0 |}.

(** [_cache = {"content": "", "last": 0}] *)
Record blog_cache : Type := {
  content : str;
  last_refresh : Z
}.

Definition cache_init : blog_cache :=
  {| content := []; last_refresh := 0 |}.

(* ------------------------------------------------------------------ *)
(** ** Credential provider *)

Definition metadata_url : str :=
  lit "http://metadata.google.internal/computeMetadata/v1/instance/service-accounts/default/token".

(** [int(data.get('expires_in', 300))] *)
Definition expires_in_int (expires_in : option (exc Z)) : exc Z :=
  match expires_in with
  | Some e => e
  | None => Ret 300
  end.

(** The least integer that has no float: [float(n)] raises
    [OverflowError] from here on, and so does a float plus [n]. *)
Definition float_limit : Z := 2 ^ 1024 - 2 ^ 970.

(** [now + n], a float plus an int. *)
Definition float_add (now : Z) (n : Z) : exc Z :=
  if Z.abs n <? float_limit then Ret (now + n) else Raise.

(** The body of the [try] in [get_access_token], after [requests.get]
    returned [r]: the value it returns or the exception it raises, and
    the cache it leaves. The value is written to the cache before the
    sum for the expiry is taken. *)
Definition read_metadata (now : Z) (ok : bool) (body : metadata_json)
    (tc : token_cache) : exc pyval * token_cache :=
  if negb ok then (Ret empty_str, tc)
  else
    match body with
    | BadJson => (Raise, tc)
    | NotDict => (Raise, tc)
    | Dict access_token expires_in =>
        let token :=
          match access_token with Some v => v | None => empty_str end in
        match expires_in_int expires_in with
        | Raise => (Raise, tc)
        | Ret n =>
            let expires_in := Z.max 30 (n - 30) in
            let tc1 := {| value := token; expires_at := expires_at tc |} in
            match float_add now expires_in with
            | Raise => (Raise, tc1)
            | Ret t => (Ret token, {| value := token; expires_at := t |})
            end
        end
    end.

(** The whole [try] block: the request, then the reading of its
    answer. *)
Definition ask_metadata (now : Z) (metadata : metadata_reply)
    (tc : token_cache) : exc pyval * token_cache :=
  match metadata with
  | MetadataRaises => (Raise, tc)
  | MetadataResponse ok body => read_metadata now ok body tc
  end.

Definition get_access_token (env : environ) (now : Z)
    (metadata : metadata_reply) (tc : token_cache)
    : pyval * token_cache * list request :=
  if py_truthy (value tc) && (expires_at tc >? now) then (value tc, tc, [])
  else
    match env_GOOGLE_OAUTH_ACCESS_TOKEN env with
    | Some ((_ :: _) as env_token) =>
        (PStr env_token,
         {| value := PStr env_token; expires_at := now + 3300 |}, [])
    | _ =>
        let '(attempt, tc') := ask_metadata now metadata tc in
        match attempt with
        | Ret token => (token, tc', [GetMetadata metadata_url])
        | Raise => (empty_str, tc', [GetMetadata metadata_url])
        end
    end.

(* ------------------------------------------------------------------ *)
(** ** Inference client *)

Definition endpoint (env : environ) : str :=
  lit "https://" ++ VERTEX_LOCATION env
  ++ lit "-aiplatform.googleapis.com/v1/"
  ++ lit "projects/" ++ get_default (GOOGLE_CLOUD_PROJECT env) (lit "None")
  ++ lit "/locations/" ++ VERTEX_LOCATION env ++ lit "/"
  ++ lit "publishers/google/models/" ++ GEMINI_MODEL env
  ++ lit ":generateContent".

Definition call_vertex (env : environ) (now : Z)
    (metadata : metadata_reply) (vertex : vertex_reply)
    (prompt : str) (tc : token_cache)
    : pyval * token_cache * list request :=
  if negb (opt_truthy (GOOGLE_CLOUD_PROJECT env)) then (empty_str, tc, [])
  else
    let '(token, tc', asked) := get_access_token env now metadata tc in
    if negb (py_truthy token) then (empty_str, tc', asked)
    else
      let asked' := asked ++ [PostVertex (endpoint env) prompt] in
      match vertex with
      | VertexRaises => (empty_str, tc', asked')
      | VertexResponse ok text =>
          if negb ok then (empty_str, tc', asked')
          else
            match text with
            | Ret v => (v, tc', asked')
            | Raise => (empty_str, tc', asked')
            end
      end.

(* ------------------------------------------------------------------ *)
(** ** Reference content cache *)

Definition nl : str := [10].

Definition FALLBACK : str :=
  nl
    ++ lit "[TAX] Rideshare tax forms are released at the end of January. 1099-K, 1099-NEC required." ++ nl
    ++ lit "Don't write " ++ [34] ++ lit "exempt" ++ [34] ++ lit " on W-4, you'll lose your refund." ++ nl
    ++ lit "[VISA] F-1 holders can travel to neighboring countries (Automatic Visa Revalidation)." ++ nl
    ++ lit "J-1 visa application: Get DS-2019, pay SEVIS, schedule consulate appointment." ++ nl
    ++ lit "[PHONE] You can get a free line through the Lifeline program." ++ nl
    ++ lit "Get a US number without SSN using Google Voice." ++ nl
    ++ lit "[HEALTH] NJ Medicaid is free for low income. Free clinics available in NY." ++ nl
    ++ lit "[BANK] Chase and BofA open accounts with passport. Start credit score with a secured card." ++ nl
    ++ lit "[RIDESHARE] Uber/Lyft requires SSN + driver's license + car insurance. Expect 1099 form in January." ++ nl
    ++ lit "[HOUSING] NJ Newark/Paterson 1BR $900-1200. Try Craigslist, Zillow, Facebook Marketplace." ++ nl
    ++ lit "[WISE] International transfer limits $50k/year. Wise > Western Union." ++ nl
    ++ lit "[LICENSE] NJ has 6 Points of ID system. Even undocumented can get a license." ++ nl
    ++ lit "[FLIGHTS] International flights from NJ $400-700. Pay excess baggage 24 hours before flight for cheaper rate." ++ nl.

Definition urls : list str :=
  [ lit "https://abdyasam.blogspot.com/";
    lit "https://abdyasam.blogspot.com/search?max-results=20" ].

(** One turn of the loop over the posts: [if len(text) > 100: combined
    += text[:800] + "\n---\n"]. *)
Definition add_post (combined : str) (text : str) : str :=
  if 100 <? Z.of_nat (List.length text)
  then combined ++ prefix 800 text ++ nl ++ lit "---" ++ nl
  else combined.

(** The loop over the URLs inside the [try] of [_fetch_blog]: the
    string collected so far and the requests issued, or an exception.
    [blog] answers each URL. *)
Fixpoint fetch_loop (blog : str -> blog_reply) (todo : list str)
    (combined : str) : exc str * list request :=
  match todo with
  | [] => (Ret combined, [])
  | url :: rest =>
      match blog url with
      | BlogRaises => (Raise, [GetBlog url])
      | BlogResponse ok posts =>
          if negb ok then
            let '(r, asked) := fetch_loop blog rest combined in
            (r, GetBlog url :: asked)
          else
            match posts with
            | Raise => (Raise, [GetBlog url])
            | Ret ps =>
                let combined' := fold_left add_post (firstn 15 ps) combined in
                let '(r, asked) := fetch_loop blog rest combined' in
                (r, GetBlog url :: asked)
            end
      end
  end.

Definition _fetch_blog (blog : str -> blog_reply) (now : Z)
    (c : blog_cache) : blog_cache * list request :=
  let '(r, asked) := fetch_loop blog urls [] in
  match r with
  | Ret combined =>
      if truthy combined
      then ({| content := prefix 6000 combined; last_refresh := now |}, asked)
      else (c, asked)
  | Raise => ({| content := FALLBACK; last_refresh := last_refresh c |}, asked)
  end.

(** [_bg_refresh], cut after finitely many rounds: each round brings
    the answers of the blog and the time at which the fetch ends. *)
Fixpoint _bg_refresh (rounds : list ((str -> blog_reply) * Z))
    (c : blog_cache) : blog_cache :=
  match rounds with
  | [] => c
  | (blog, now) :: rest => _bg_refresh rest (fst (_fetch_blog blog now c))
  end.

Definition get_context (c : blog_cache) : str :=
  if negb (truthy (content c)) then FALLBACK else content c.

(* ------------------------------------------------------------------ *)
(** ** Fallback responder *)

(** The condition of the generator in [local_fallback_reply]:
    [line.strip() and line.strip() != "---"]. *)
Definition keep_line (line : str) : bool :=
  truthy (strip line) && negb (Str.eqb (strip line) (lit "---")).

(** The excerpt [sample] of [local_fallback_reply]. *)
Definition sample_of (context : str) : str :=
  let sample := join_nl (filter keep_line (splitlines context)) in
  join_nl (firstn 8 (splitlines sample)).

Definition preamble : str :=
  [9888; 65039] ++ lit " Vertex AI configuration is missing, so showing a quick guide summary instead of an AI response." ++ nl
    ++ nl.

Definition question_label : str := [128204] ++ lit " Question: ".

Definition advice : str :=
  nl
    ++ [9989] ++ lit " Full AI answers will return once you add GOOGLE_CLOUD_PROJECT and VERTEX_LOCATION to Cloud Run env variables." ++ nl
    ++ [9989] ++ lit " Grant the Vertex AI User (roles/aiplatform.user) role to the service account." ++ nl
    ++ nl
    ++ lit "Quick Info:" ++ nl.

Definition local_fallback_reply (user : str) (c : blog_cache) : str :=
  let sample := sample_of (get_context c) in
  preamble
  ++ question_label
  ++ (if truthy user then user else lit "General question")
  ++ advice
  ++ sample.

(* ------------------------------------------------------------------ *)
(** ** Entry point and output sanitization *)

Definition usa_prompt : str :=
  nl
    ++ lit "    " ++ [127482; 127480] ++ lit " ONLY ANSWER ABOUT USA-RELATED TOPICS" ++ nl
    ++ lit "    " ++ [9989] ++ lit " USA VISA / SSN / BANK / HOUSING / UBER / TAX / HEALTH" ++ nl
    ++ lit "    " ++ [8226] ++ lit " Add emoji to each step: " ++ [9989] ++ lit " " ++ [128640] ++ lit " " ++ [128176] ++ lit " " ++ [128241] ++ lit " " ++ [127968] ++ lit " " ++ [129706] ++ lit " " ++ [9992; 65039] ++ lit " " ++ [127973] ++ lit " " ++ [128179] ++ nl
    ++ lit "    " ++ [8226] ++ lit " CAPITALIZE important words" ++ nl
    ++ lit "    " ++ [8226] ++ lit " Short paragraphs, long lists" ++ nl
    ++ lit "    " ++ [8226] ++ lit " USE OUTPUT TEMPLATE:" ++ nl
    ++ lit "      1) Quick Summary (3 items)" ++ nl
    ++ lit "      2) Step-by-Step Checklist" ++ nl
    ++ lit "      3) Common Mistakes / Risks" ++ nl
    ++ lit "      4) Official Links (if available)" ++ nl
    ++ lit "      5) Next Step (one clear recommendation)" ++ nl
    ++ lit "    " ++ [9888; 65039] ++ lit " USA / NJ / NY ONLY!" ++ nl
    ++ lit "    ".

(** The test of the generator in [llm]: [ord(c) < 128 or 0x1F600 <=
    ord(c) <= 0x1F64F or 0x1F300 <= ord(c) <= 0x1F5FF]. *)
Definition allowed (c : Z) : bool :=
  (c <? 128)
  || ((0x1F600 <=? c) && (c <=? 0x1F64F))
  || ((0x1F300 <=? c) && (c <=? 0x1F5FF)).

(** What [llm] does to a model answer: the three statements from
    [text.replace('**', '')] to [text.strip()]. *)
Definition sanitize (text : str) : str :=
  let text := replace_stars text in
  let text := filter allowed text in
  strip text.

(** [llm(system, user)]. A model answer that is not a string has no
    [replace]: the exception leaves [llm]. *)
Definition llm (env : environ) (now : Z) (metadata : metadata_reply)
    (vertex : vertex_reply) (system user : str)
    (tc : token_cache) (c : blog_cache)
    : exc str * token_cache * list request :=
  if negb (opt_truthy (GOOGLE_CLOUD_PROJECT env))
  then (Ret (local_fallback_reply user c), tc, [])
  else
    let full_system :=
      system ++ nl ++ nl ++ usa_prompt ++ nl ++ nl
      ++ lit "Reference data:" ++ nl ++ get_context c in
    let prompt :=
      full_system ++ nl ++ nl ++ lit "User question:" ++ nl ++ user in
    let '(text, tc', asked) := call_vertex env now metadata vertex prompt tc in
    if negb (py_truthy text)
    then (Ret (local_fallback_reply user c), tc', asked)
    else
      match text with
      | PStr text => (Ret (sanitize text), tc', asked)
      | _ => (Raise, tc', asked)
      end.

(* ------------------------------------------------------------------ *)
(** ** Request validation, feedback and health routes *)

(** What a route function leaves to Flask: a value, a
    [BadRequestError] with its message, or any other exception. *)
Inductive outcome (A : Type) : Type :=
| Done (a : A)
| BadRequestError (msg : str)
| Unhandled.
Arguments Done {A} a.
Arguments BadRequestError {A} msg.
Arguments Unhandled {A}.

(** A dict as its items, in order; the keys of a dict are distinct. *)
Definition items_t : Type := list (str * pyval).

(** [d.get(key, default)] *)
Fixpoint dict_get (d : items_t) (key : str) (default : pyval) : pyval :=
  match d with
  | [] => default
  | (k, v) :: rest => if Str.eqb k key then v else dict_get rest key default
  end.

(** [key in d] *)
Fixpoint dict_has (d : items_t) (key : str) : bool :=
  match d with
  | [] => false
  | (k, _) :: rest => Str.eqb k key || dict_has rest key
  end.

(** [not str(v).strip()]. Only a string can be blank: the text of any
    other value ([None], [True], [0], [[]], [{}]) holds a character
    that is no white space. *)
Definition blank (v : pyval) : bool :=
  match v with
  | PStr s => negb (truthy (strip s))
  | _ => false
  end.

(** [isinstance(value, str) and len(value) > _MAX_FIELD_LENGTH] *)
Definition _MAX_FIELD_LENGTH : Z := 2000.

Definition too_long (v : pyval) : bool :=
  match v with
  | PStr s => _MAX_FIELD_LENGTH <? Z.of_nat (List.length s)
  | _ => false
  end.

(** [sep.join(ls)] *)
Fixpoint join (sep : str) (ls : list str) : str :=
  match ls with
  | [] => []
  | [l] => l
  | l :: rest => l ++ sep ++ join sep rest
  end.

(** [require_json(required_fields)]; [data] is what
    [request.get_json(silent=True)] returns, [None] for a body that is
    no JSON. A missing [required_fields] is the empty list. *)
Definition require_json (required_fields : list str) (data : pyval)
    : outcome items_t :=
  match data with
  | PDict d =>
      let missing :=
        filter (fun field => blank (dict_get d field (PStr [])))
               required_fields in
      match missing with
      | _ :: _ =>
          BadRequestError (lit "Missing field(s): " ++ join (lit ", ") missing)
      | [] =>
          if existsb (fun kv => too_long (snd kv)) d
          then BadRequestError
                 (lit "Request field exceeds maximum length (2000 characters).")
          else Done d
      end
  | _ => BadRequestError (lit "JSON body required.")
  end.

(** A response: status code and the fields given to [jsonify]. *)
Record response : Type := {
  status : Z;
  body : items_t
}.

(** Flask's dispatch with the two error handlers of the program:
    [handle_bad_request] and [handle_unexpected_error]. *)
Definition respond (o : outcome items_t) : response :=
  match o with
  | Done fields => {| status := 200; body := fields |}
  | BadRequestError msg =>
      {| status := 400; body := [(lit "error", PStr msg)] |}
  | Unhandled =>
      {| status := 500;
         body := [(lit "error",
                   PStr (lit "An error occurred during processing."))] |}
  end.

(** [llm_json(system_prompt, user_prompt)] *)
Definition llm_json (env : environ) (now : Z) (metadata : metadata_reply)
    (vertex : vertex_reply) (system_prompt user_prompt : str)
    (tc : token_cache) (c : blog_cache)
    : outcome items_t * token_cache * list request :=
  let '(r, tc', asked) :=
    llm env now metadata vertex system_prompt user_prompt tc c in
  match r with
  | Ret text => (Done [(lit "result", PStr text)], tc', asked)
  | Raise => (Unhandled, tc', asked)
  end.

(** One entry of [_feedback_store]. *)
Record feedback : Type := {
  message : str;
  contact : str;
  ts : Z
}.

(** [deque(maxlen=500).append(x)]: the element goes to the right end
    and, if the deque is then too long, the leftmost one goes. *)
Definition feedback_maxlen : Z := 500.

Definition deque_append (d : list feedback) (x : feedback) : list feedback :=
  let d' := d ++ [x] in
  if feedback_maxlen <? Z.of_nat (List.length d') then tl d' else d'.

(** [v.strip()]: only a string has the method. *)
Definition py_strip (v : pyval) : exc str :=
  match v with
  | PStr s => Ret (strip s)
  | _ => Raise
  end.

Definition thanks : str :=
  lit "Thank you! Your feedback has been received and added to the improvement list.".

(** [do_feedback()]: the outcome and the store it leaves. *)
Definition do_feedback (now : Z) (data : pyval) (store : list feedback)
    : outcome items_t * list feedback :=
  match require_json [lit "message"] data with
  | Done d =>
      let entry :=
        m <- py_strip (dict_get d (lit "message") (PStr [])) ;;
        c <- py_strip (dict_get d (lit "contact") (PStr [])) ;;
        Ret {| message := m; contact := c; ts := now |} in
      match entry with
      | Ret e =>
          let store' := deque_append store e in
          (Done [(lit "result", PStr thanks);
                 (lit "total_feedback", PInt (Z.of_nat (List.length store')))],
           store')
      | Raise => (Unhandled, store)
      end
  | BadRequestError msg => (BadRequestError msg, store)
  | Unhandled => (Unhandled, store)
  end.

(** The feedback route served for a sequence of requests, each with the
    time it arrives and its body. *)
Fixpoint feedback_run (requests : list (Z * pyval)) (store : list feedback)
    : list feedback :=
  match requests with
  | [] => store
  | (now, data) :: rest => feedback_run rest (snd (do_feedback now data store))
  end.

(** [healthz()] *)
Definition healthz (env : environ) (now : Z) (metadata : metadata_reply)
    (tc : token_cache) : items_t * token_cache * list request :=
  let '(vertex_configured, tc', asked) :=
    if opt_truthy (GOOGLE_CLOUD_PROJECT env)
    then
      let '(token, tc', asked) := get_access_token env now metadata tc in
      (py_truthy token, tc', asked)
    else (false, tc, []) in
  ([(lit "status", PStr (lit "ok"));
    (lit "ai_provider", PStr (lit "vertex_ai_gemini"));
    (lit "vertex_configured", PBool vertex_configured);
    (lit "project",
     match GOOGLE_CLOUD_PROJECT env with Some s => PStr s | None => PNone end);
    (lit "location", PStr (VERTEX_LOCATION env));
    (lit "model", PStr (GEMINI_MODEL env))],
   tc', asked).

(* ------------------------------------------------------------------ *)
(** ** Vocabulary of the properties *)

(** The three components of what a function leaves: the value it
    returns, the store it leaves, the requests it issued. *)
Definition returned {A B C : Type} (r : A * B * C) : A := fst (fst r).
Definition store_after {A B C : Type} (r : A * B * C) : B := snd (fst r).
Definition issued {A B C : Type} (r : A * B * C) : C := snd r.

(** An environment in which none of the variables is set. *)
Definition environ_empty : environ :=
  {| env_GOOGLE_CLOUD_PROJECT := None;
     env_GCP_PROJECT := None;
     env_VERTEX_LOCATION := None;
     env_GEMINI_MODEL := None;
     env_GOOGLE_OAUTH_ACCESS_TOKEN := None |}.

(** An environment with a project and an override token. *)
Definition environ_configured : environ :=
  {| env_GOOGLE_CLOUD_PROJECT := Some (lit "demo-project");
     env_GCP_PROJECT := None;
     env_VERTEX_LOCATION := None;
     env_GEMINI_MODEL := None;
     env_GOOGLE_OAUTH_ACCESS_TOKEN := Some (lit "ya29.a0") |}.

(** A character the sanitized output may hold: ASCII, or in one of the
    two emoji ranges. *)
Definition whitelisted (c : Z) : Prop :=
  c < 128 \/ 0x1F600 <= c <= 0x1F64F \/ 0x1F300 <= c <= 0x1F5FF.

(** The bold-markup delimiter. *)
Definition bold : str := lit "**".

(** No project identifier is configured. *)
Definition no_project (env : environ) : Prop :=
  opt_truthy (GOOGLE_CLOUD_PROJECT env) = false.

(** No override token in the environment. *)
Definition no_env_token (env : environ) : Prop :=
  opt_truthy (env_GOOGLE_OAUTH_ACCESS_TOKEN env) = false.

(** The cached credential is there and its expiry lies in the future. *)
Definition cache_valid (now : Z) (tc : token_cache) : Prop :=
  py_truthy (value tc) = true /\ now < expires_at tc.

(** The ways the metadata request fails: a network exception, a
    non-success status, a body that is no JSON document or no JSON
    object, an [expires_in] that [int] rejects. *)
Definition metadata_failed (m : metadata_reply) : Prop :=
  match m with
  | MetadataRaises => True
  | MetadataResponse ok body =>
      ok = false \/
      match body with
      | BadJson | NotDict | Dict _ (Some Raise) => True
      | Dict _ _ => False
      end
  end.

(** The [access_token] the metadata service delivers, if it delivers
    one, is a string. *)
Definition token_is_text (m : metadata_reply) : Prop :=
  match m with
  | MetadataResponse _ (Dict (Some v) _) => is_str v
  | _ => True
  end.

(** The [try] body of [_fetch_blog] raises. *)
Definition fetch_raises (blog : str -> blog_reply) : Prop :=
  fst (fetch_loop blog urls []) = Raise.

(** The [try] body of [_fetch_blog] ends without an exception and with
    nothing collected. *)
Definition fetch_collects_nothing (blog : str -> blog_reply) : Prop :=
  fst (fetch_loop blog urls []) = Ret [].

(** A source that answers and contributes nothing: a non-success
    status, or no block among the first 15 longer than 100
    characters. *)
Definition source_quiet (r : blog_reply) : Prop :=
  match r with
  | BlogRaises => False
  | BlogResponse ok posts =>
      ok = false \/
      exists ps, posts = Ret ps /\
        Forall (fun t => (List.length t <= 100)%nat) (firstn 15 ps)
  end.

(** The first words of the fallback reply, and the sign in front of
    them: U+26A0, U+FE0F and a space. *)
Definition missing_text : str := lit "Vertex AI configuration is missing".
Definition warning_sign : str := [9888; 65039; 32].

(** The question of the scenario. *)
Definition bank_question : str := lit "Can I open a bank account without SSN?".

(** The lines [local_fallback_reply] shows: the first 8 lines of the
    reference content that are neither blank nor a separator. *)
Definition excerpt_lines (context : str) : list str :=
  firstn 8 (filter keep_line (splitlines context)).

(** The prompt [llm] sends to the model. *)
Definition prompt_of (system user : str) (c : blog_cache) : str :=
  (system ++ nl ++ nl ++ usa_prompt ++ nl ++ nl
   ++ lit "Reference data:" ++ nl ++ get_context c)
  ++ nl ++ nl ++ lit "User question:" ++ nl ++ user.

(** The inference call fails: an exception, a non-success status, or a
    document from which the text cannot be read. *)
Definition vertex_failed (v : vertex_reply) : Prop :=
  match v with
  | VertexRaises => True
  | VertexResponse ok text => ok = false \/ text = Raise
  end.

(** A source whose request or parsing raises. *)
Definition source_raises (r : blog_reply) : Prop :=
  r = BlogRaises \/ r = BlogResponse true Raise.

(** The block a post contributes to the collected text. *)
Definition block_of (text : str) : str :=
  prefix 800 text ++ nl ++ lit "---" ++ nl.

(** The posts of a source that the loop looks at: the first 15 of a
    source that answered with success and could be parsed. *)
Definition source_posts (r : blog_reply) : list str :=
  match r with
  | BlogResponse true (Ret ps) => firstn 15 ps
  | _ => []
  end.

(** [len(text) > 100] *)
Definition long_post (text : str) : bool :=
  100 <? Z.of_nat (List.length text).

(** A feedback entry as the route stores it: a message that is not
    empty, neither message nor contact with white space at an end or
    longer than the field ceiling. *)
Definition clean_entry (e : feedback) : Prop :=
  message e <> []
  /\ strip (message e) = message e
  /\ strip (contact e) = contact e
  /\ Z.of_nat (List.length (message e)) <= _MAX_FIELD_LENGTH
  /\ Z.of_nat (List.length (contact e)) <= _MAX_FIELD_LENGTH.

(** The body [require_json] accepts for the given required fields. *)
Definition acceptable (required_fields : list str) (d : items_t) : Prop :=
  (forall field, In field required_fields ->
     dict_has d field = true
     /\ forall s, dict_get d field (PStr []) = PStr s -> strip s <> [])
  /\ (forall k s, In (k, PStr s) d ->
        Z.of_nat (List.length s) <= _MAX_FIELD_LENGTH).

(** Integers below this bound, and their sums below it, are floats:
    there a float sum is exact. *)
Definition exact_limit : Z := 2 ^ 53.

(** An environment with a project and no override token. *)
Definition environ_project_only : environ :=
  {| env_GOOGLE_CLOUD_PROJECT := Some (lit "demo-project");
     env_GCP_PROJECT := None;
     env_VERTEX_LOCATION := None;
     env_GEMINI_MODEL := None;
     env_GOOGLE_OAUTH_ACCESS_TOKEN := None |}.

(** What [call_vertex] reads off the answer of the model endpoint. *)
Definition vertex_text (v : vertex_reply) : pyval :=
  match v with
  | VertexResponse true (Ret text) => text
  | _ => empty_str
  end.

(* ------------------------------------------------------------------ *)
(** * Properties *)

(** ** Strings *)


(** Induction for functions that look at two characters at a time. *)
Lemma str_ind2 (P : str -> Prop) :
  P [] ->
  (forall c, P [c]) ->
  (forall c d r, P r -> P (d :: r) -> P (c :: d :: r)) ->
  forall s, P s.
Proof.
  intros H0 H1 H2 s.
  assert (both : P s /\ forall c, P (c :: s)).
  { induction s as [|d r [IHr IHdr]].
    - split; [exact H0 | exact H1].
    - split; [apply IHdr | intro c; apply H2; [exact IHr | apply IHdr]]. }
  exact (proj1 both).
Qed.

Lemma lit_stars : lit "**" = [42; 42].
Proof. reflexivity. Qed.

Lemma truthy_true (s : str) : truthy s = true <-> s <> [].
Proof. destruct s; simpl; split; congruence. Qed.

Lemma eqb_eq (a b : str) : Str.eqb a b = true <-> a = b.
Proof.
  unfold Str.eqb. destruct (list_eq_dec Z.eq_dec a b); split; congruence.
Qed.

(** *** dropwhile and strip *)

Section DropWhile.

Variable p : Z -> bool.

Lemma dropwhile_split (s : str) :
  exists pre, s = pre ++ dropwhile p s /\ Forall (fun c => p c = true) pre.
Proof.
  induction s as [|c r [pre [E F]]]; simpl.
  - exists []. split; [reflexivity | constructor].
  - destruct (p c) eqn:pc.
    + exists (c :: pre). split; [simpl; f_equal; exact E | constructor; assumption].
    + exists []. split; [reflexivity | constructor].
Qed.

Lemma dropwhile_head (s : str) (c : Z) (r : str) :
  dropwhile p s = c :: r -> p c = false.
Proof.
  induction s as [|d s IH]; simpl; [discriminate|].
  destruct (p d) eqn:pd; [exact IH|].
  intros E; injection E as -> _. exact pd.
Qed.

Lemma dropwhile_fixed (s : str) :
  match s with [] => True | c :: _ => p c = false end ->
  dropwhile p s = s.
Proof. destruct s as [|c r]; simpl; [reflexivity|]. intros ->. reflexivity. Qed.

Lemma dropwhile_idem (s : str) :
  dropwhile p (dropwhile p s) = dropwhile p s.
Proof.
  apply dropwhile_fixed. destruct (dropwhile p s) as [|c r] eqn:E; [exact I|].
  exact (dropwhile_head s c r E).
Qed.

End DropWhile.

Lemma rstrip_split (s : str) : exists post, s = rstrip s ++ post.
Proof.
  unfold rstrip. destruct (dropwhile_split isspace (rev s)) as [pre [E _]].
  exists (rev pre). rewrite <- rev_app_distr, <- E. symmetry. apply rev_involutive.
Qed.

(** The stripped string sits inside the original one. *)
Lemma strip_split (s : str) : exists pre post, s = pre ++ strip s ++ post.
Proof.
  unfold strip, lstrip.
  destruct (dropwhile_split isspace s) as [pre [E _]].
  destruct (rstrip_split (dropwhile isspace s)) as [post E'].
  exists pre, post. rewrite <- E'. exact E.
Qed.

Lemma strip_Forall (P : Z -> Prop) (s : str) :
  Forall P s -> Forall P (strip s).
Proof.
  destruct (strip_split s) as [pre [post E]]. intros F. rewrite E in F.
  apply Forall_app in F as [_ F]. apply Forall_app in F as [F _]. exact F.
Qed.

Lemma strip_length (s : str) : (List.length (strip s) <= List.length s)%nat.
Proof.
  destruct (strip_split s) as [pre [post E]]. rewrite E at 2.
  rewrite !length_app. lia.
Qed.

Lemma strip_nil : strip [] = [].
Proof. reflexivity. Qed.

Lemma strip_idem (s : str) : strip (strip s) = strip s.
Proof.
  assert (L : lstrip (strip s) = strip s).
  { apply dropwhile_fixed. destruct (strip s) as [|c r] eqn:E; [exact I|].
    unfold strip in E. destruct (rstrip_split (lstrip s)) as [post E'].
    rewrite E in E'. simpl in E'. exact (dropwhile_head isspace s c _ E'). }
  unfold strip at 1. rewrite L. unfold strip, rstrip.
  rewrite rev_involutive, dropwhile_idem. reflexivity.
Qed.

(** *** Pairs of asterisks *)

Lemma has_stars_cons2 (c d : Z) (r : str) :
  has_stars (c :: d :: r)
  = ((c =? 42) && (d =? 42)) || has_stars (d :: r).
Proof. reflexivity. Qed.

Lemma replace_stars_cons2 (c d : Z) (r : str) :
  replace_stars (c :: d :: r)
  = if (c =? 42) && (d =? 42) then replace_stars r
    else c :: replace_stars (d :: r).
Proof. reflexivity. Qed.

Lemma has_stars_contains (s : str) :
  has_stars s = true <-> contains (lit "**") s.
Proof.
  rewrite lit_stars. split.
  - induction s as [|c r IH]; simpl; [discriminate|].
    destruct r as [|d r']; [discriminate|].
    intros H. apply orb_true_iff in H as [H|H].
    + apply andb_true_iff in H as [Hc Hd].
      apply Z.eqb_eq in Hc, Hd. subst. exists [], r'. reflexivity.
    + destruct (IH H) as [pre [post E]].
      exists (c :: pre), post. simpl. f_equal. exact E.
  - intros [pre [post E]]. subst s.
    induction pre as [|c pre IH]; [reflexivity|].
    change ((c :: pre) ++ [42; 42] ++ post)
      with (c :: (pre ++ [42; 42] ++ post)).
    destruct (pre ++ [42; 42] ++ post) as [|d r'] eqn:E; [discriminate|].
    rewrite has_stars_cons2, IH. apply orb_true_r.
Qed.

Lemma no_stars_contains (s : str) :
  has_stars s = false <-> ~ contains (lit "**") s.
Proof.
  rewrite <- has_stars_contains. destruct (has_stars s); split; congruence.
Qed.

Lemma contains_strip (sub s : str) :
  contains sub (strip s) -> contains sub s.
Proof.
  intros [pre [post E]]. destruct (strip_split s) as [pre' [post' E']].
  exists (pre' ++ pre), (post ++ post'). rewrite E', E.
  rewrite <- !app_assoc. reflexivity.
Qed.

Lemma strip_no_stars (s : str) :
  has_stars s = false -> has_stars (strip s) = false.
Proof.
  rewrite !no_stars_contains. intros H C. exact (H (contains_strip _ _ C)).
Qed.

Lemma replace_stars_head (c : Z) (r : str) :
  c <> 42 -> exists r2, replace_stars (c :: r) = c :: r2.
Proof.
  intros Hc. apply Z.eqb_neq in Hc. destruct r as [|d r']; simpl.
  - exists []. reflexivity.
  - rewrite Hc. simpl. eexists. reflexivity.
Qed.

(** One pass of [replace] leaves no pair of asterisks. *)
Lemma replace_stars_no_stars (s : str) : has_stars (replace_stars s) = false.
Proof.
  induction s as [|c|c d r IHr IHdr] using str_ind2; try reflexivity.
  rewrite replace_stars_cons2.
  destruct ((c =? 42) && (d =? 42)) eqn:cd; [exact IHr|].
  destruct (replace_stars (d :: r)) as [|e X] eqn:E; [reflexivity|].
  rewrite has_stars_cons2, IHdr, orb_false_r.
  destruct (Z.eqb_spec c 42) as [->|]; [|reflexivity].
  simpl in cd. apply Z.eqb_neq in cd.
  destruct (replace_stars_head d r cd) as [r2 E2].
  rewrite E2 in E. injection E as <- _.
  apply Z.eqb_neq in cd. rewrite cd. reflexivity.
Qed.

Lemma replace_stars_id (s : str) :
  has_stars s = false -> replace_stars s = s.
Proof.
  induction s as [|c r IH]; [reflexivity|].
  destruct r as [|d r']; [reflexivity|].
  rewrite has_stars_cons2, replace_stars_cons2. intros H.
  apply orb_false_iff in H as [H1 H2]. rewrite H1. f_equal. exact (IH H2).
Qed.

Lemma replace_stars_In (s : str) (x : Z) :
  In x (replace_stars s) -> In x s.
Proof.
  induction s as [|c|c d r IHr IHdr] using str_ind2; try (intros H; exact H).
  rewrite replace_stars_cons2.
  destruct ((c =? 42) && (d =? 42)).
  - intros H. right. right. exact (IHr H).
  - intros [H|H]; [left; exact H | right; exact (IHdr H)].
Qed.

Lemma replace_stars_length (s : str) :
  (List.length (replace_stars s) <= List.length s)%nat
  /\ (has_stars s = true ->
      (List.length (replace_stars s) < List.length s)%nat).
Proof.
  induction s as [|c|c d r IHr IHdr] using str_ind2;
    try (split; [simpl; lia | discriminate]).
  rewrite replace_stars_cons2, has_stars_cons2.
  destruct ((c =? 42) && (d =? 42)); simpl orb.
  - split; [|intros _]; cbn [List.length]; lia.
  - cbn [List.length] in *. split; [lia|]. intros H.
    specialize (proj2 IHdr H). lia.
Qed.

Lemma filter_fixed (f : Z -> bool) (s : str) :
  Forall (fun c => f c = true) s -> filter f s = s.
Proof.
  induction 1 as [|c r Hc _ IH]; simpl; [reflexivity|].
  rewrite Hc, IH. reflexivity.
Qed.

Lemma filter_all (f : Z -> bool) (s : str) :
  Forall (fun c => f c = true) (filter f s).
Proof. apply Forall_forall. intros x H. apply filter_In in H. apply H. Qed.


(* ------------------------------------------------------------------ *)
(** ** Output sanitizer *)

Lemma allowed_whitelisted (c : Z) : allowed c = true <-> whitelisted c.
Proof.
  unfold allowed, whitelisted.
  rewrite !orb_true_iff, !andb_true_iff, Z.ltb_lt, !Z.leb_le. tauto.
Qed.

Lemma whitelisted_forallb (s : str) :
  forallb allowed s = true <-> Forall whitelisted s.
Proof.
  rewrite forallb_forall, Forall_forall.
  split; intros H x Hx; apply allowed_whitelisted, H, Hx.
Qed.

Lemma sanitize_Forall (text : str) : Forall whitelisted (sanitize text).
Proof.
  unfold sanitize. apply strip_Forall.
  eapply Forall_impl; [|apply filter_all].
  intros c. apply allowed_whitelisted.
Qed.

(** On text made of whitelisted characters the filter drops nothing. *)
Lemma sanitize_whitelisted_input (text : str) :
  Forall whitelisted text -> sanitize text = strip (replace_stars text).
Proof.
  intros F. unfold sanitize. f_equal. apply filter_fixed.
  apply Forall_forall. intros x Hx. apply allowed_whitelisted.
  rewrite Forall_forall in F. apply F. exact (replace_stars_In _ _ Hx).
Qed.

Lemma sanitize_whitelisted_no_stars (text : str) :
  Forall whitelisted text -> has_stars (sanitize text) = false.
Proof.
  intros F. rewrite (sanitize_whitelisted_input _ F).
  apply strip_no_stars, replace_stars_no_stars.
Qed.

Lemma sanitize_fixed (text : str) :
  has_stars (sanitize text) = false -> sanitize (sanitize text) = sanitize text.
Proof.
  intros H. unfold sanitize at 1.
  rewrite (replace_stars_id _ H).
  rewrite filter_fixed.
  - unfold sanitize. apply strip_idem.
  - eapply Forall_impl; [|apply sanitize_Forall].
    intros c. apply allowed_whitelisted.
Qed.

Lemma sanitize_shrinks (text : str) :
  has_stars text = true ->
  (List.length (sanitize text) < List.length text)%nat.
Proof.
  intros H. unfold sanitize.
  pose proof (strip_length (filter allowed (replace_stars text))).
  pose proof (filter_length_le allowed (replace_stars text)).
  pose proof (proj2 (replace_stars_length text) H). lia.
Qed.

(** C1, the code at the failing input. The model answer [*é*] holds no
    pair of asterisks; the filter drops the letter between the two, and
    what [llm] returns is the bold-markup delimiter itself. *)
Lemma sanitize_output_with_stars :
  sanitize [42; 233; 42] = bold
  /\ contains bold (sanitize [42; 233; 42])
  /\ returned (llm environ_configured 0 MetadataRaises
                 (VertexResponse true (Ret (PStr [42; 233; 42])))
                 [] bank_question token_cache_init cache_init)
     = Ret bold.
Proof.
  split; [reflexivity|]. split; [|reflexivity]. exists [], []. reflexivity.
Qed.

(** What the sanitization does ensure. For every input, every character
    of the output is ASCII or lies in one of the two emoji ranges, and
    the text that leaves the bold-markup removal holds no [**]; the
    output holds no [**] whenever every character of the input is
    itself ASCII or in the two ranges. *)
Theorem sanitize_whitelist (text : str) :
  Forall whitelisted (sanitize text)
  /\ ~ contains bold (replace_stars text)
  /\ (Forall whitelisted text -> ~ contains bold (sanitize text)).
Proof.
  split; [apply sanitize_Forall|]. split.
  - apply no_stars_contains, replace_stars_no_stars.
  - intros F. apply no_stars_contains, sanitize_whitelisted_no_stars, F.
Qed.

Lemma sanitize_whitelist_witness :
  Forall whitelisted (lit "**Step 1** Apply *now*")
  /\ ~ contains bold (sanitize (lit "**Step 1** Apply *now*")).
Proof.
  assert (F : Forall whitelisted (lit "**Step 1** Apply *now*")).
  { apply whitelisted_forallb. reflexivity. }
  split; [exact F|].
  exact (proj2 (proj2 (sanitize_whitelist (lit "**Step 1** Apply *now*"))) F).
Defined.

(** C3, the code at the failing input. Sanitizing [*é*] gives [**];
    sanitizing that gives the empty string: the second application
    changes the text. *)
Lemma sanitize_twice_differs :
  sanitize [42; 233; 42] = bold
  /\ sanitize (sanitize [42; 233; 42]) = []
  /\ sanitize (sanitize [42; 233; 42]) <> sanitize [42; 233; 42].
Proof. split; [reflexivity|]. split; [reflexivity|]. vm_compute. discriminate. Qed.

(** When sanitizing is stable. Sanitizing twice gives the same as
    sanitizing once exactly when the once-sanitized text holds no [**];
    this is the case for every input made of ASCII and whitelisted
    emoji characters only. *)
Theorem sanitize_idempotent (text : str) :
  (sanitize (sanitize text) = sanitize text
   <-> ~ contains bold (sanitize text))
  /\ (Forall whitelisted text -> sanitize (sanitize text) = sanitize text).
Proof.
  split.
  - rewrite <- no_stars_contains. split.
    + intros E. destruct (has_stars (sanitize text)) eqn:H; [|reflexivity].
      pose proof (sanitize_shrinks _ H) as L. rewrite E in L. lia.
    + apply sanitize_fixed.
  - intros F. apply sanitize_fixed, sanitize_whitelisted_no_stars, F.
Qed.

Lemma sanitize_idempotent_witness :
  Forall whitelisted (lit "  **Step 1** Apply for SSN ")
  /\ sanitize (sanitize (lit "  **Step 1** Apply for SSN "))
     = sanitize (lit "  **Step 1** Apply for SSN ").
Proof.
  assert (F : Forall whitelisted (lit "  **Step 1** Apply for SSN ")).
  { apply whitelisted_forallb. reflexivity. }
  split; [exact F|].
  exact (proj2 (sanitize_idempotent (lit "  **Step 1** Apply for SSN ")) F).
Defined.

(* ------------------------------------------------------------------ *)
(** ** Credential provider *)

Lemma cache_valid_test (now : Z) (tc : token_cache) :
  py_truthy (value tc) && (expires_at tc >? now) = true <-> cache_valid now tc.
Proof.
  unfold cache_valid. rewrite andb_true_iff, Z.gtb_ltb, Z.ltb_lt. tauto.
Qed.

Lemma cache_invalid_test (now : Z) (tc : token_cache) :
  ~ cache_valid now tc ->
  py_truthy (value tc) && (expires_at tc >? now) = false.
Proof.
  intros H. apply not_true_is_false. intros T. apply H, cache_valid_test, T.
Qed.

(** A valid cache entry is served as it is. *)
Lemma get_access_token_hit (env : environ) (now : Z)
    (metadata : metadata_reply) (tc : token_cache) :
  cache_valid now tc ->
  get_access_token env now metadata tc = (value tc, tc, []).
Proof.
  intros H. apply cache_valid_test in H.
  unfold get_access_token. rewrite H. reflexivity.
Qed.

(** What the handler makes of the [try] block. *)
Lemma get_access_token_miss (env : environ) (now : Z)
    (metadata : metadata_reply) (tc : token_cache) :
  ~ cache_valid now tc -> no_env_token env ->
  get_access_token env now metadata tc =
    (match fst (ask_metadata now metadata tc) with
     | Ret token => token
     | Raise => empty_str
     end,
     snd (ask_metadata now metadata tc),
     [GetMetadata metadata_url]).
Proof.
  intros H E. unfold get_access_token. rewrite (cache_invalid_test now tc H).
  unfold no_env_token, opt_truthy in E.
  destruct (env_GOOGLE_OAUTH_ACCESS_TOKEN env) as [[|c t]|];
    try discriminate;
    destruct (ask_metadata now metadata tc) as [[token|] tc']; reflexivity.
Qed.

(** Every call issues no request or the one metadata request. *)
Lemma get_access_token_issued (env : environ) (now : Z)
    (metadata : metadata_reply) (tc : token_cache) :
  issued (get_access_token env now metadata tc) = []
  \/ (issued (get_access_token env now metadata tc) = [GetMetadata metadata_url]
      /\ ~ cache_valid now tc /\ no_env_token env).
Proof.
  destruct (py_truthy (value tc) && (expires_at tc >? now)) eqn:T.
  - left. unfold get_access_token. rewrite T. reflexivity.
  - assert (V : ~ cache_valid now tc).
    { intros V. apply cache_valid_test in V. congruence. }
    destruct (opt_truthy (env_GOOGLE_OAUTH_ACCESS_TOKEN env)) eqn:E.
    + left. unfold get_access_token. rewrite T.
      destruct (env_GOOGLE_OAUTH_ACCESS_TOKEN env) as [[|c t]|];
        try discriminate E. reflexivity.
    + right. rewrite (get_access_token_miss env now metadata tc V E).
      split; [reflexivity|]. split; [exact V | exact E].
Qed.

(** The answers after which the [try] block raises. *)
Lemma ask_metadata_failed (now : Z) (metadata : metadata_reply)
    (tc : token_cache) :
  metadata_failed metadata ->
  ask_metadata now metadata tc
  = (match metadata with
     | MetadataResponse false _ => Ret empty_str
     | _ => Raise
     end, tc).
Proof.
  destruct metadata as [|[|] body]; try reflexivity.
  intros [F|F]; [discriminate F|].
  unfold ask_metadata, read_metadata. simpl negb. cbv iota.
  destruct body as [| |a [[n|]|]]; try reflexivity; contradiction.
Qed.

(** A successful answer with a lifetime a float can hold. *)
Lemma ask_metadata_success (now : Z) (ok_token : option pyval)
    (expires_in : option (exc Z)) (n : Z) (tc : token_cache) :
  expires_in_int expires_in = Ret n ->
  Z.max 30 (n - 30) < float_limit ->
  ask_metadata now (MetadataResponse true (Dict ok_token expires_in)) tc
  = (Ret (match ok_token with Some v => v | None => empty_str end),
     {| value := match ok_token with Some v => v | None => empty_str end;
        expires_at := now + Z.max 30 (n - 30) |}).
Proof.
  intros I L. unfold ask_metadata, read_metadata, float_add.
  simpl negb. cbv iota. rewrite I.
  assert (A : (Z.abs (Z.max 30 (n - 30)) <? float_limit) = true).
  { apply Z.ltb_lt. rewrite Z.abs_eq; [exact L | lia]. }
  rewrite A. reflexivity.
Qed.

(** A successful answer with a lifetime too large for a float: the
    value is written, the sum raises, the expiry stays. *)
Lemma ask_metadata_overflow (now : Z) (ok_token : option pyval)
    (expires_in : option (exc Z)) (n : Z) (tc : token_cache) :
  expires_in_int expires_in = Ret n ->
  float_limit <= Z.max 30 (n - 30) ->
  ask_metadata now (MetadataResponse true (Dict ok_token expires_in)) tc
  = (Raise,
     {| value := match ok_token with Some v => v | None => empty_str end;
        expires_at := expires_at tc |}).
Proof.
  intros I L. unfold ask_metadata, read_metadata, float_add.
  simpl negb. cbv iota. rewrite I.
  assert (A : (Z.abs (Z.max 30 (n - 30)) <? float_limit) = false).
  { apply Z.ltb_ge. rewrite Z.abs_eq; [exact L | lia]. }
  rewrite A. reflexivity.
Qed.

(** C7, counterexample. A successful response whose [access_token] is
    the number 123 makes [get_access_token] return that number. *)
Lemma get_access_token_returns_number :
  returned (get_access_token environ_empty 0
              (MetadataResponse true (Dict (Some (PInt 123)) None))
              token_cache_init) = PInt 123
  /\ ~ is_str (returned (get_access_token environ_empty 0
                 (MetadataResponse true (Dict (Some (PInt 123)) None))
                 token_cache_init)).
Proof.
  split; [reflexivity|]. intros [s E]. vm_compute in E. discriminate.
Qed.

(** C7, as amended. In every environment and whatever the metadata
    service does, [get_access_token] returns one of four values: the
    cached value on a cache hit, the override token, the empty string,
    or the [access_token] of a successful metadata response. Whenever
    the metadata request is issued and fails (network exception,
    non-success status, a body that is no JSON object, an [expires_in]
    that [int] rejects) the value is the empty string and the cache is
    untouched; when the lifetime is too large for a float the value is
    the empty string too, the token value written to the cache and the
    expiry left as it was. The value returned is a string provided the
    cached value is one and the [access_token] of the response, if
    present, is one; when the request is issued and answered with
    success, an [access_token] and an [expires_in] that [int] accepts
    and a float can hold, the [access_token] is returned and cached as
    it is, string or not. *)
Theorem get_access_token_total (env : environ) (now : Z)
    (metadata : metadata_reply) (tc : token_cache) :
  (cache_valid now tc
   /\ get_access_token env now metadata tc = (value tc, tc, [])
   \/ (exists t, env_GOOGLE_OAUTH_ACCESS_TOKEN env = Some t /\ t <> []
                 /\ returned (get_access_token env now metadata tc) = PStr t)
   \/ returned (get_access_token env now metadata tc) = empty_str
   \/ exists v e, metadata = MetadataResponse true (Dict (Some v) e)
                  /\ returned (get_access_token env now metadata tc) = v)
  /\ (metadata_failed metadata ->
      issued (get_access_token env now metadata tc) <> [] ->
      get_access_token env now metadata tc
      = (empty_str, tc, [GetMetadata metadata_url]))
  /\ (forall a e n,
        metadata = MetadataResponse true (Dict a e) ->
        expires_in_int e = Ret n ->
        float_limit <= Z.max 30 (n - 30) ->
        issued (get_access_token env now metadata tc) <> [] ->
        get_access_token env now metadata tc
        = (empty_str,
           {| value := match a with Some v => v | None => empty_str end;
              expires_at := expires_at tc |},
           [GetMetadata metadata_url]))
  /\ (is_str (value tc) -> token_is_text metadata ->
      is_str (returned (get_access_token env now metadata tc)))
  /\ (forall v e n,
        metadata = MetadataResponse true (Dict (Some v) e) ->
        expires_in_int e = Ret n ->
        Z.max 30 (n - 30) < float_limit ->
        issued (get_access_token env now metadata tc) <> [] ->
        returned (get_access_token env now metadata tc) = v
        /\ value (store_after (get_access_token env now metadata tc)) = v).
Proof.
  destruct (get_access_token_issued env now metadata tc) as [N|[N [V E]]].
  - (* no request: a cache hit or the override token *)
    assert (H : cache_valid now tc
                /\ get_access_token env now metadata tc = (value tc, tc, [])
                \/ exists t, env_GOOGLE_OAUTH_ACCESS_TOKEN env = Some t
                             /\ t <> []
                             /\ returned (get_access_token env now metadata tc)
                                = PStr t).
    { destruct (py_truthy (value tc) && (expires_at tc >? now)) eqn:T.
      - left. apply cache_valid_test in T.
        split; [exact T | apply get_access_token_hit, T].
      - assert (V : ~ cache_valid now tc).
        { intros V. apply cache_valid_test in V. congruence. }
        destruct (opt_truthy (env_GOOGLE_OAUTH_ACCESS_TOKEN env)) eqn:E.
        + right. unfold get_access_token. rewrite T.
          destruct (env_GOOGLE_OAUTH_ACCESS_TOKEN env) as [[|c t]|];
            try discriminate E.
          exists (c :: t). split; [reflexivity|].
          split; [discriminate | reflexivity].
        + exfalso. rewrite (get_access_token_miss env now metadata tc V E) in N.
          discriminate N. }
    split; [destruct H as [H|H]; [left; exact H | right; left; exact H]|].
    split; [intros _ X; contradiction|].
    split; [intros a e n _ _ _ X; contradiction|].
    split; [|intros v e n _ _ _ X; contradiction].
    intros S _. destruct H as [[_ H]|[t [_ [_ H]]]]; rewrite H;
      [exact S | exists t; reflexivity].
  - (* the metadata service is asked *)
    rewrite (get_access_token_miss env now metadata tc V E).
    unfold returned, store_after, issued. cbn [fst snd].
    split; [|split; [|split; [|split]]].
    + destruct metadata as [|[|] [| |[v|] e]];
        try (right; right; left; reflexivity).
      * destruct (expires_in_int e) as [n|] eqn:I.
        -- destruct (Z_lt_le_dec (Z.max 30 (n - 30)) float_limit) as [L|L].
           ++ right. right. right. exists v, e. split; [reflexivity|].
              rewrite (ask_metadata_success now (Some v) e n tc I L).
              reflexivity.
           ++ right. right. left.
              rewrite (ask_metadata_overflow now (Some v) e n tc I L).
              reflexivity.
        -- right. right. left. unfold ask_metadata, read_metadata.
           simpl negb. cbv iota. rewrite I. reflexivity.
      * destruct (expires_in_int e) as [n|] eqn:I.
        -- destruct (Z_lt_le_dec (Z.max 30 (n - 30)) float_limit) as [L|L].
           ++ right. right. left.
              rewrite (ask_metadata_success now None e n tc I L). reflexivity.
           ++ right. right. left.
              rewrite (ask_metadata_overflow now None e n tc I L). reflexivity.
        -- right. right. left. unfold ask_metadata, read_metadata.
           simpl negb. cbv iota. rewrite I. reflexivity.
    + intros F _. rewrite (ask_metadata_failed now metadata tc F).
      destruct metadata as [|[|] body]; reflexivity.
    + intros a e n -> I L _.
      rewrite (ask_metadata_overflow now a e n tc I L). reflexivity.
    + intros S T. destruct metadata as [|[|] [| |[v|] e]];
        try (exists []; reflexivity).
      * destruct (expires_in_int e) as [n|] eqn:I.
        -- destruct (Z_lt_le_dec (Z.max 30 (n - 30)) float_limit) as [L|L].
           ++ rewrite (ask_metadata_success now (Some v) e n tc I L). exact T.
           ++ rewrite (ask_metadata_overflow now (Some v) e n tc I L).
              exists []. reflexivity.
        -- unfold ask_metadata, read_metadata. simpl negb. cbv iota.
           rewrite I. exists []. reflexivity.
      * destruct (expires_in_int e) as [n|] eqn:I.
        -- destruct (Z_lt_le_dec (Z.max 30 (n - 30)) float_limit) as [L|L].
           ++ rewrite (ask_metadata_success now None e n tc I L).
              exists []. reflexivity.
           ++ rewrite (ask_metadata_overflow now None e n tc I L).
              exists []. reflexivity.
        -- unfold ask_metadata, read_metadata. simpl negb. cbv iota.
           rewrite I. exists []. reflexivity.
    + intros v e n -> I L _.
      rewrite (ask_metadata_success now (Some v) e n tc I L).
      split; reflexivity.
Qed.

Lemma get_access_token_total_witness :
  get_access_token environ_empty 1000
    (MetadataResponse true BadJson) token_cache_init
  = (empty_str, token_cache_init, [GetMetadata metadata_url])
  /\ get_access_token environ_empty 1000
       (MetadataResponse true
          (Dict (Some (PInt 123)) (Some (Ret (2 ^ 1024))))) token_cache_init
     = (empty_str, {| value := PInt 123; expires_at := 0 |},
        [GetMetadata metadata_url])
  /\ is_str (returned (get_access_token environ_empty 1000
               (MetadataResponse true (Dict (Some (PStr (lit "ya29.a0"))) None))
               token_cache_init))
  /\ returned (get_access_token environ_empty 1000
                 (MetadataResponse true (Dict (Some (PInt 123)) None))
                 token_cache_init) = PInt 123.
Proof.
  split; [|split; [|split]].
  - apply (proj1 (proj2 (get_access_token_total environ_empty 1000
                           (MetadataResponse true BadJson) token_cache_init))).
    + right. exact I.
    + vm_compute. discriminate.
  - apply (proj1 (proj2 (proj2 (get_access_token_total environ_empty 1000
                           (MetadataResponse true
                              (Dict (Some (PInt 123)) (Some (Ret (2 ^ 1024)))))
                           token_cache_init)))
             (Some (PInt 123)) (Some (Ret (2 ^ 1024))) (2 ^ 1024) eq_refl eq_refl).
    + vm_compute. discriminate.
    + vm_compute. discriminate.
  - apply (proj1 (proj2 (proj2 (proj2 (get_access_token_total environ_empty 1000
                           (MetadataResponse true
                              (Dict (Some (PStr (lit "ya29.a0"))) None))
                           token_cache_init))))).
    + exists []. reflexivity.
    + exists (lit "ya29.a0"). reflexivity.
  - apply (proj2 (proj2 (proj2 (proj2 (get_access_token_total environ_empty 1000
                           (MetadataResponse true (Dict (Some (PInt 123)) None))
                           token_cache_init))))
             (PInt 123) None 300 eq_refl eq_refl).
    + vm_compute. reflexivity.
    + vm_compute. discriminate.
Defined.

(** C8. A cached value whose expiry lies in the future is returned
    without a metadata request; so of two consecutive calls, the second
    falling within the expiry the first one left, at most one asks the
    metadata service. *)
Theorem credential_caching (env : environ) (now : Z)
    (metadata : metadata_reply) (tc : token_cache) :
  (cache_valid now tc ->
   get_access_token env now metadata tc = (value tc, tc, []))
  /\ (forall (before : Z) (metadata0 : metadata_reply) (tc0 : token_cache),
         tc = store_after (get_access_token env before metadata0 tc0) ->
         cache_valid now tc ->
         returned (get_access_token env now metadata tc) = value tc
         /\ (List.length (issued (get_access_token env before metadata0 tc0)
                          ++ issued (get_access_token env now metadata tc))
             <= 1)%nat).
Proof.
  split; [apply get_access_token_hit|].
  intros before metadata0 tc0 _ V.
  rewrite (get_access_token_hit env now metadata tc V).
  split; [reflexivity|]. unfold issued at 2. simpl snd. rewrite app_nil_r.
  destruct (get_access_token_issued env before metadata0 tc0) as [E|[E _]];
    rewrite E; simpl; lia.
Qed.

Lemma credential_caching_witness :
  cache_valid 1010
    (store_after (get_access_token environ_empty 1000
                    (MetadataResponse true
                       (Dict (Some (PStr (lit "ya29.a0"))) (Some (Ret 3599))))
                    token_cache_init))
  /\ returned (get_access_token environ_empty 1010 MetadataRaises
                 (store_after (get_access_token environ_empty 1000
                    (MetadataResponse true
                       (Dict (Some (PStr (lit "ya29.a0"))) (Some (Ret 3599))))
                    token_cache_init)))
     = PStr (lit "ya29.a0").
Proof.
  assert (V : cache_valid 1010
    (store_after (get_access_token environ_empty 1000
                    (MetadataResponse true
                       (Dict (Some (PStr (lit "ya29.a0"))) (Some (Ret 3599))))
                    token_cache_init))).
  { split; [reflexivity | vm_compute; reflexivity]. }
  split; [exact V|].
  exact (proj1 (proj2 (credential_caching environ_empty 1010 MetadataRaises _)
                  1000 _ token_cache_init eq_refl V)).
Defined.

(** C10, counterexample. The body [{"expires_in": null}] lacks
    [access_token]; [int(None)] raises, the handler returns the empty
    string, and nothing is cached: the expiry stays at 0. *)
Lemma missing_token_nothing_cached :
  get_access_token environ_empty 1000
    (MetadataResponse true (Dict None (Some Raise))) token_cache_init
  = (empty_str, token_cache_init, [GetMetadata metadata_url])
  /\ ~ 1000 < expires_at (store_after
                 (get_access_token environ_empty 1000
                    (MetadataResponse true (Dict None (Some Raise)))
                    token_cache_init)).
Proof.
  split; [reflexivity|]. vm_compute. discriminate.
Qed.

(** C10, as amended. When the metadata service is asked and answers
    with success and a JSON object without [access_token], the empty
    string is returned. If [expires_in] is missing or [int] accepts it
    and the lifetime fits a float, an empty token is cached with an
    expiry in the future; if the lifetime is too large for a float, the
    empty token is written and the expiry stays as it was; if [int]
    rejects [expires_in], the cache is left as it was. In every case
    the next call, at the same time or later, asks the metadata service
    again (no override token being set). *)
Theorem missing_access_token (env : environ) (now : Z)
    (expires_in : option (exc Z)) (tc : token_cache) :
  ~ cache_valid now tc -> no_env_token env ->
  returned (get_access_token env now
              (MetadataResponse true (Dict None expires_in)) tc) = empty_str
  /\ (forall n, expires_in_int expires_in = Ret n ->
        Z.max 30 (n - 30) < float_limit ->
        value (store_after (get_access_token env now
                 (MetadataResponse true (Dict None expires_in)) tc))
        = empty_str
        /\ now < expires_at (store_after (get_access_token env now
                     (MetadataResponse true (Dict None expires_in)) tc)))
  /\ (forall n, expires_in_int expires_in = Ret n ->
        float_limit <= Z.max 30 (n - 30) ->
        store_after (get_access_token env now
                       (MetadataResponse true (Dict None expires_in)) tc)
        = {| value := empty_str; expires_at := expires_at tc |})
  /\ (expires_in_int expires_in = Raise ->
        store_after (get_access_token env now
                       (MetadataResponse true (Dict None expires_in)) tc) = tc)
  /\ (forall (later : Z) (metadata' : metadata_reply),
        now <= later ->
        issued (get_access_token env later metadata'
                  (store_after (get_access_token env now
                     (MetadataResponse true (Dict None expires_in)) tc)))
        = [GetMetadata metadata_url]).
Proof.
  intros V E.
  rewrite (get_access_token_miss env now _ tc V E).
  unfold returned, store_after. cbn [fst snd].
  assert (next : forall tc' later metadata',
             ~ cache_valid later tc' ->
             issued (get_access_token env later metadata' tc')
             = [GetMetadata metadata_url]).
  { intros tc' later metadata' V'.
    rewrite (get_access_token_miss env later metadata' tc' V' E).
    reflexivity. }
  destruct (expires_in_int expires_in) as [n|] eqn:I.
  - destruct (Z_lt_le_dec (Z.max 30 (n - 30)) float_limit) as [L|L].
    + rewrite (ask_metadata_success now None expires_in n tc I L).
      cbn [fst snd]. split; [reflexivity|]. split; [|split; [|split]].
      * intros m [= <-] _. split; [reflexivity | simpl; lia].
      * intros m [= <-] L'. lia.
      * discriminate.
      * intros later metadata' _. apply next. intros [T _]. discriminate T.
    + rewrite (ask_metadata_overflow now None expires_in n tc I L).
      cbn [fst snd]. split; [reflexivity|]. split; [|split; [|split]].
      * intros m [= <-] L'. lia.
      * intros m _ _. reflexivity.
      * discriminate.
      * intros later metadata' _. apply next. intros [T _]. discriminate T.
  - assert (A : ask_metadata now (MetadataResponse true (Dict None expires_in))
                  tc = (Raise, tc)).
    { unfold ask_metadata, read_metadata. simpl negb. cbv iota.
      rewrite I. reflexivity. }
    rewrite A. cbn [fst snd]. split; [reflexivity|]. split; [|split; [|split]].
    + discriminate.
    + discriminate.
    + reflexivity.
    + intros later metadata' L. apply next.
      intros [T X]. apply V. split; [exact T | lia].
Qed.

Lemma missing_access_token_witness :
  returned (get_access_token environ_empty 1000
              (MetadataResponse true (Dict None (Some (Ret 3599))))
              token_cache_init) = empty_str
  /\ 1000 < expires_at (store_after (get_access_token environ_empty 1000
                 (MetadataResponse true (Dict None (Some (Ret 3599))))
                 token_cache_init))
  /\ store_after (get_access_token environ_empty 1000
                    (MetadataResponse true (Dict None (Some (Ret (2 ^ 1024)))))
                    token_cache_init)
     = {| value := empty_str; expires_at := 0 |}
  /\ issued (get_access_token environ_empty 1001 MetadataRaises
               (store_after (get_access_token environ_empty 1000
                  (MetadataResponse true (Dict None (Some (Ret 3599))))
                  token_cache_init)))
     = [GetMetadata metadata_url].
Proof.
  assert (V : ~ cache_valid 1000 token_cache_init).
  { intros [T _]. discriminate T. }
  assert (E : no_env_token environ_empty) by reflexivity.
  pose proof (missing_access_token environ_empty 1000 (Some (Ret 3599))
                token_cache_init V E) as [R [C [_ [_ N]]]].
  pose proof (missing_access_token environ_empty 1000 (Some (Ret (2 ^ 1024)))
                token_cache_init V E) as [_ [_ [O _]]].
  split; [exact R|]. split; [|split].
  - apply (C 3599 eq_refl). vm_compute. reflexivity.
  - apply (O (2 ^ 1024) eq_refl). vm_compute. discriminate.
  - apply N. lia.
Defined.

(* ------------------------------------------------------------------ *)
(** ** Reference content cache *)

Lemma FALLBACK_truthy : truthy FALLBACK = true.
Proof. reflexivity. Qed.

Lemma prefix_truthy (n : Z) (s : str) :
  0 < n -> truthy s = true -> truthy (prefix n s) = true.
Proof.
  intros Hn Hs. unfold prefix.
  destruct (Z.to_nat n) as [|k] eqn:E; [lia|].
  destruct s; [discriminate | reflexivity].
Qed.

(** What [_fetch_blog] leaves, by the outcome of its [try] body. *)
Lemma _fetch_blog_cases (blog : str -> blog_reply) (now : Z) (c : blog_cache) :
  fst (_fetch_blog blog now c) =
    match fst (fetch_loop blog urls []) with
    | Ret combined =>
        if truthy combined
        then {| content := prefix 6000 combined; last_refresh := now |}
        else c
    | Raise => {| content := FALLBACK; last_refresh := last_refresh c |}
    end.
Proof.
  unfold _fetch_blog.
  destruct (fetch_loop blog urls []) as [[combined|] asked]; cbn [fst];
    [destruct (truthy combined)|]; reflexivity.
Qed.

Lemma add_post_short (posts : list str) (combined : str) :
  Forall (fun t => (List.length t <= 100)%nat) posts ->
  fold_left add_post posts combined = combined.
Proof.
  induction 1 as [|t posts Ht _ IH]; [reflexivity|].
  simpl. unfold add_post at 2.
  destruct (Z.ltb_spec 100 (Z.of_nat (List.length t))); [lia | exact IH].
Qed.

Lemma fetch_loop_quiet (blog : str -> blog_reply) (todo : list str)
    (combined : str) :
  (forall url, In url todo -> source_quiet (blog url)) ->
  fst (fetch_loop blog todo combined) = Ret combined.
Proof.
  induction todo as [|url rest IH]; intros Q; [reflexivity|].
  assert (IH' : fst (fetch_loop blog rest combined) = Ret combined).
  { apply IH. intros u Hu. apply Q. right. exact Hu. }
  pose proof (Q url (or_introl eq_refl)) as Qu.
  simpl. destruct (blog url) as [|ok posts]; [contradiction|].
  destruct ok; simpl negb; cbv iota.
  - destruct Qu as [?|[ps [-> F]]]; [discriminate|].
    rewrite (add_post_short _ _ F).
    destruct (fetch_loop blog rest combined). exact IH'.
  - destruct (fetch_loop blog rest combined). exact IH'.
Qed.

(** Every write to the cache content writes a non-empty string. *)
Lemma _fetch_blog_content (blog : str -> blog_reply) (now : Z)
    (c : blog_cache) :
  fst (_fetch_blog blog now c) = c
  \/ truthy (content (fst (_fetch_blog blog now c))) = true.
Proof.
  rewrite _fetch_blog_cases.
  destruct (fst (fetch_loop blog urls [])) as [combined|].
  - destruct (truthy combined) eqn:T; [right | left; reflexivity].
    apply prefix_truthy; [lia | exact T].
  - right. exact FALLBACK_truthy.
Qed.

Lemma _bg_refresh_content (rounds : list ((str -> blog_reply) * Z))
    (c : blog_cache) :
  content (_bg_refresh rounds c) = content c
  \/ truthy (content (_bg_refresh rounds c)) = true.
Proof.
  revert c. induction rounds as [|[blog now] rest IH]; intros c;
    [left; reflexivity|].
  simpl. destruct (IH (fst (_fetch_blog blog now c))) as [E|T];
    [|right; exact T].
  rewrite E. destruct (_fetch_blog_content blog now c) as [E'|T'];
    [left; rewrite E'; reflexivity | right; exact T'].
Qed.

(** C4. If the fetch raises, the next [get_context] returns the
    fallback corpus itself, whatever the cache held. *)
Theorem fetch_exception_resets (blog : str -> blog_reply) (now : Z)
    (c : blog_cache) :
  fetch_raises blog ->
  content (fst (_fetch_blog blog now c)) = FALLBACK
  /\ get_context (fst (_fetch_blog blog now c)) = FALLBACK.
Proof.
  unfold fetch_raises. intros R.
  rewrite _fetch_blog_cases, R. split; reflexivity.
Qed.

Lemma fetch_exception_resets_witness :
  fetch_raises (fun _ => BlogResponse true Raise)
  /\ get_context
       (fst (_fetch_blog (fun _ => BlogResponse true Raise) 7200
               {| content := lit "An older post"; last_refresh := 3600 |}))
     = FALLBACK.
Proof.
  assert (R : fetch_raises (fun _ => BlogResponse true Raise)) by reflexivity.
  split; [exact R|].
  exact (proj2 (fetch_exception_resets (fun _ => BlogResponse true Raise) 7200
                  {| content := lit "An older post"; last_refresh := 3600 |} R)).
Defined.

(** C5. [get_context] returns a non-empty string in every cache state:
    the fallback corpus when the cached content is empty, as it is
    before the first refresh, and the cached content otherwise; and no
    fetch, nor any number of refresh rounds, sets the content to the
    empty string. *)
Theorem get_context_nonempty (c : blog_cache) :
  get_context c <> []
  /\ get_context c = (if truthy (content c) then content c else FALLBACK)
  /\ get_context cache_init = FALLBACK
  /\ (forall blog now,
        content (fst (_fetch_blog blog now c)) = content c
        \/ content (fst (_fetch_blog blog now c)) <> [])
  /\ (forall rounds,
        content (_bg_refresh rounds c) = content c
        \/ content (_bg_refresh rounds c) <> []).
Proof.
  assert (G : get_context c
              = if truthy (content c) then content c else FALLBACK).
  { unfold get_context. destruct (truthy (content c)); reflexivity. }
  split; [|split; [exact G|split; [reflexivity|split]]].
  - rewrite G. apply truthy_true.
    destruct (truthy (content c)) eqn:T; [exact T | exact FALLBACK_truthy].
  - intros blog now. destruct (_fetch_blog_content blog now c) as [E|T];
      [left; rewrite E; reflexivity | right; apply truthy_true, T].
  - intros rounds. destruct (_bg_refresh_content rounds c) as [E|T];
      [left; exact E | right; apply truthy_true, T].
Qed.

(** C9. A fetch that ends without an exception and with nothing
    collected leaves both cache fields as they were; this is so when
    every source answers with a non-success status or with no block of
    more than 100 characters among its first 15. *)
Theorem fetch_without_content (blog : str -> blog_reply) (now : Z)
    (c : blog_cache) :
  fetch_collects_nothing blog
  \/ (forall url, In url urls -> source_quiet (blog url)) ->
  fst (_fetch_blog blog now c) = c.
Proof.
  intros H.
  assert (N : fetch_collects_nothing blog).
  { destruct H as [N|Q]; [exact N | exact (fetch_loop_quiet blog urls [] Q)]. }
  unfold fetch_collects_nothing in N.
  rewrite _fetch_blog_cases, N. reflexivity.
Qed.

Lemma fetch_without_content_witness :
  (forall url, In url urls ->
     source_quiet
       (if Str.eqb url (lit "https://abdyasam.blogspot.com/")
        then BlogResponse false (Ret [])
        else BlogResponse true (Ret [lit "Short teaser"])))
  /\ fst (_fetch_blog
            (fun url =>
               if Str.eqb url (lit "https://abdyasam.blogspot.com/")
               then BlogResponse false (Ret [])
               else BlogResponse true (Ret [lit "Short teaser"]))
            7200 {| content := lit "An older post"; last_refresh := 3600 |})
     = {| content := lit "An older post"; last_refresh := 3600 |}.
Proof.
  assert (Q : forall url, In url urls ->
     source_quiet
       (if Str.eqb url (lit "https://abdyasam.blogspot.com/")
        then BlogResponse false (Ret [])
        else BlogResponse true (Ret [lit "Short teaser"]))).
  { intros url _.
    destruct (Str.eqb url (lit "https://abdyasam.blogspot.com/")).
    - left. reflexivity.
    - right. exists [lit "Short teaser"]. split; [reflexivity|].
      constructor; [simpl; lia | constructor]. }
  split; [exact Q|].
  exact (fetch_without_content _ 7200
           {| content := lit "An older post"; last_refresh := 3600 |}
           (or_intror Q)).
Defined.

(* ------------------------------------------------------------------ *)
(** ** Fallback responder *)

Lemma splitlines_from_char (cur : str) (c : Z) (r : str) :
  islinebreak c = false ->
  splitlines_from cur (c :: r) = splitlines_from (c :: cur) r.
Proof. intros H. simpl. rewrite H. reflexivity. Qed.

Lemma splitlines_from_nl (cur r : str) :
  splitlines_from cur (10 :: r) = rev cur :: splitlines_from [] r.
Proof. destruct r; reflexivity. Qed.

Lemma splitlines_from_end (cur : str) :
  cur <> [] -> splitlines_from cur [] = [rev cur].
Proof. destruct cur; [congruence | reflexivity]. Qed.

Lemma splitlines_from_line (l : str) (cur rest : str) :
  Forall (fun c => islinebreak c = false) l ->
  splitlines_from cur (l ++ rest) = splitlines_from (rev l ++ cur) rest.
Proof.
  intros F. revert cur.
  induction F as [|c l Hc _ IH]; intros cur; [reflexivity|].
  cbn [app]. rewrite (splitlines_from_char cur c (l ++ rest) Hc), IH.
  cbn [rev]. rewrite <- app_assoc. reflexivity.
Qed.

(** Joining lines with a newline and splitting again gives the lines
    back, when none is empty or holds a line boundary. *)
Lemma splitlines_join (ls : list str) :
  Forall (fun l => l <> [] /\ Forall (fun c => islinebreak c = false) l) ls ->
  splitlines (join_nl ls) = ls.
Proof.
  unfold splitlines.
  induction 1 as [|l rest [Hne Hl] _ IH]; [reflexivity|].
  destruct rest as [|l2 rest'].
  - cbn [join_nl]. rewrite <- (app_nil_r l) at 1.
    rewrite (splitlines_from_line l [] [] Hl), app_nil_r.
    rewrite splitlines_from_end.
    + rewrite rev_involutive. reflexivity.
    + intros E. apply Hne. rewrite <- (rev_involutive l), E. reflexivity.
  - change (join_nl (l :: l2 :: rest'))
      with (l ++ 10 :: join_nl (l2 :: rest')).
    rewrite (splitlines_from_line l [] _ Hl), app_nil_r.
    rewrite splitlines_from_nl, rev_involutive, IH. reflexivity.
Qed.

(** No line that [splitlines] returns holds a line boundary. *)
Lemma splitlines_from_nobreak (s : str) :
  forall cur,
    Forall (fun c => islinebreak c = false) cur ->
    Forall (Forall (fun c => islinebreak c = false)) (splitlines_from cur s).
Proof.
  assert (R : forall cur, Forall (fun c => islinebreak c = false) cur ->
                Forall (fun c => islinebreak c = false) (rev cur)).
  { intros cur F. apply Forall_forall. intros x Hx. apply in_rev in Hx.
    rewrite Forall_forall in F. exact (F x Hx). }
  induction s as [|c|c d r IHr IHdr] using str_ind2; intros cur F.
  - destruct cur as [|z cur']; simpl; repeat constructor.
    apply (R (z :: cur') F).
  - simpl. destruct (islinebreak c) eqn:B.
    + repeat constructor. exact (R cur F).
    + repeat constructor. apply (R (c :: cur)). constructor; assumption.
  - cbn [splitlines_from]. destruct (islinebreak c) eqn:B.
    + constructor; [exact (R cur F)|].
      destruct ((c =? 13) && (d =? 10)); [apply IHr | apply IHdr]; constructor.
    + apply IHdr. constructor; assumption.
Qed.

Lemma keep_line_nonempty (l : str) : keep_line l = true -> l <> [].
Proof. intros K ->. discriminate K. Qed.

(** The excerpt of [local_fallback_reply] is made of the first 8 kept
    lines: splitting the joined lines a second time changes nothing. *)
Lemma sample_of_excerpt (context : str) :
  sample_of context = join_nl (excerpt_lines context).
Proof.
  unfold sample_of, excerpt_lines. rewrite splitlines_join; [reflexivity|].
  apply Forall_forall. intros l Hl. apply filter_In in Hl as [Hin K].
  split; [exact (keep_line_nonempty l K)|].
  pose proof (splitlines_from_nobreak context [] (Forall_nil _)) as N.
  rewrite Forall_forall in N. exact (N l Hin).
Qed.

Lemma excerpt_lines_short (context : str) :
  (List.length (excerpt_lines context) <= 8)%nat.
Proof. unfold excerpt_lines. apply firstn_le_length. Qed.

Lemma firstn_In (A : Type) (n : nat) (l : list A) (x : A) :
  In x (firstn n l) -> In x l.
Proof.
  intros H. rewrite <- (firstn_skipn n l). apply in_or_app. left. exact H.
Qed.

Lemma excerpt_lines_kept (context : str) :
  Forall (fun l => In l (splitlines context) /\ keep_line l = true)
         (excerpt_lines context).
Proof.
  apply Forall_forall. intros l H. unfold excerpt_lines in H.
  apply firstn_In, filter_In in H. exact H.
Qed.

(** Without a project [llm] answers with the fallback reply and touches
    nothing. *)
Lemma llm_no_project (env : environ) (now : Z) (metadata : metadata_reply)
    (vertex : vertex_reply) (system user : str)
    (tc : token_cache) (c : blog_cache) :
  no_project env ->
  llm env now metadata vertex system user tc c
  = (Ret (local_fallback_reply user c), tc, []).
Proof. unfold no_project, llm. intros ->. reflexivity. Qed.

Lemma local_fallback_reply_contains (user : str) (c : blog_cache) :
  contains user (local_fallback_reply user c).
Proof.
  unfold local_fallback_reply. destruct user as [|u user'].
  - exists [], (preamble ++ question_label ++ lit "General question"
                ++ advice ++ sample_of (get_context c)).
    reflexivity.
  - exists (preamble ++ question_label), (advice ++ sample_of (get_context c)).
    cbn [truthy]. rewrite <- !app_assoc. reflexivity.
Qed.

(** C6. Without a project identifier [call_vertex] returns the empty
    string and issues no request, and [llm] returns a text that starts
    with the fixed preamble and ends with the excerpt: at most 8 lines
    of the current reference content, none blank, none a separator. *)
Theorem llm_without_project (env : environ) (now : Z)
    (metadata : metadata_reply) (vertex : vertex_reply)
    (system user prompt : str) (tc : token_cache) (c : blog_cache) :
  no_project env ->
  call_vertex env now metadata vertex prompt tc = (empty_str, tc, [])
  /\ exists reply,
       llm env now metadata vertex system user tc c = (Ret reply, tc, [])
       /\ startswith preamble reply
       /\ endswith (join_nl (excerpt_lines (get_context c))) reply
       /\ (List.length (excerpt_lines (get_context c)) <= 8)%nat
       /\ Forall (fun l => In l (splitlines (get_context c))
                           /\ keep_line l = true)
                 (excerpt_lines (get_context c)).
Proof.
  intros P. split.
  - unfold call_vertex. unfold no_project in P. rewrite P. reflexivity.
  - exists (local_fallback_reply user c).
    split; [exact (llm_no_project env now metadata vertex system user tc c P)|].
    split; [|split; [|split]].
    + unfold local_fallback_reply, startswith. eexists. reflexivity.
    + unfold local_fallback_reply, endswith.
      rewrite sample_of_excerpt, !app_assoc. eexists. reflexivity.
    + apply excerpt_lines_short.
    + apply excerpt_lines_kept.
Qed.

Lemma llm_without_project_witness :
  no_project environ_empty
  /\ call_vertex environ_empty 0 MetadataRaises VertexRaises
       bank_question token_cache_init
     = (empty_str, token_cache_init, []).
Proof.
  split; [reflexivity|].
  exact (proj1 (llm_without_project environ_empty 0 MetadataRaises VertexRaises
                  [] [] bank_question token_cache_init cache_init eq_refl)).
Defined.

Lemma preamble_begins : startswith (warning_sign ++ missing_text) preamble.
Proof.
  exists (lit ", so showing a quick guide summary instead of an AI response."
          ++ nl ++ nl).
  reflexivity.
Qed.

(** C2, counterexample. With no project and the fallback corpus in the
    cache, the answer to the question of the scenario starts with the
    warning sign, not with the letter V. *)
Lemma llm_fallback_first_character :
  exists reply,
    llm environ_empty 0 MetadataRaises VertexRaises [] bank_question
        token_cache_init {| content := FALLBACK; last_refresh := 0 |}
    = (Ret reply, token_cache_init, [])
    /\ ~ startswith missing_text reply.
Proof.
  eexists. split; [reflexivity|].
  intros [post E]. apply (f_equal (hd 0)) in E. vm_compute in E. discriminate.
Qed.

(** C2, as amended. With no project identifier and the fallback corpus
    in the cache, the answer to any question is a text that begins with
    the warning sign (U+26A0 U+FE0F) and a space, followed at once by
    "Vertex AI configuration is missing"; it holds the question as
    asked and ends with the excerpt of the fallback corpus. *)
Theorem llm_fallback_text (env : environ) (now : Z)
    (metadata : metadata_reply) (vertex : vertex_reply)
    (system user : str) (tc : token_cache) (c : blog_cache) :
  no_project env -> content c = FALLBACK ->
  exists reply,
    llm env now metadata vertex system user tc c = (Ret reply, tc, [])
    /\ startswith (warning_sign ++ missing_text) reply
    /\ contains user reply
    /\ endswith (sample_of FALLBACK) reply.
Proof.
  intros P C. exists (local_fallback_reply user c).
  split; [exact (llm_no_project env now metadata vertex system user tc c P)|].
  split; [|split].
  - destruct preamble_begins as [rest E].
    unfold local_fallback_reply, startswith. rewrite E, <- !app_assoc.
    eexists. reflexivity.
  - apply local_fallback_reply_contains.
  - unfold local_fallback_reply, endswith, get_context.
    rewrite C, FALLBACK_truthy. cbn [negb]. rewrite !app_assoc.
    eexists. reflexivity.
Qed.

Lemma llm_fallback_text_witness :
  no_project environ_empty
  /\ exists reply,
       llm environ_empty 0 MetadataRaises VertexRaises [] bank_question
           token_cache_init {| content := FALLBACK; last_refresh := 0 |}
       = (Ret reply, token_cache_init, [])
       /\ startswith (warning_sign ++ missing_text) reply
       /\ contains bank_question reply
       /\ endswith (sample_of FALLBACK) reply.
Proof.
  split; [reflexivity|].
  exact (llm_fallback_text environ_empty 0 MetadataRaises VertexRaises
           [] bank_question token_cache_init
           {| content := FALLBACK; last_refresh := 0 |} eq_refl eq_refl).
Defined.

(* ------------------------------------------------------------------ *)
(** * Further properties *)

(** ** Credential provider *)

(** X1. When the cache holds no valid entry and an override token is
    set, that token is returned without a request and cached for 3300
    seconds: until then every call returns it, whatever the environment
    and the metadata service have become. *)
Theorem env_token_adopted (env : environ) (now : Z)
    (metadata : metadata_reply) (tc : token_cache) (t : str) :
  ~ cache_valid now tc ->
  env_GOOGLE_OAUTH_ACCESS_TOKEN env = Some t -> t <> [] ->
  get_access_token env now metadata tc
  = (PStr t, {| value := PStr t; expires_at := now + 3300 |}, [])
  /\ forall env' later metadata',
       later < now + 3300 ->
       get_access_token env' later metadata'
         {| value := PStr t; expires_at := now + 3300 |}
       = (PStr t, {| value := PStr t; expires_at := now + 3300 |}, []).
Proof.
  intros V E T. split.
  - unfold get_access_token. rewrite (cache_invalid_test now tc V), E.
    destruct t as [|c0 t0]; [congruence | reflexivity].
  - intros env' later metadata' L. apply get_access_token_hit.
    split; [destruct t as [|c0 t0]; [congruence | reflexivity] | exact L].
Qed.

Lemma env_token_adopted_witness :
  get_access_token environ_configured 1000 MetadataRaises token_cache_init
  = (PStr (lit "ya29.a0"),
     {| value := PStr (lit "ya29.a0"); expires_at := 4300 |}, [])
  /\ get_access_token environ_empty 4299 MetadataRaises
       {| value := PStr (lit "ya29.a0"); expires_at := 4300 |}
     = (PStr (lit "ya29.a0"),
        {| value := PStr (lit "ya29.a0"); expires_at := 4300 |}, []).
Proof.
  assert (V : ~ cache_valid 1000 token_cache_init).
  { intros [T _]. discriminate T. }
  assert (N : lit "ya29.a0" <> []) by discriminate.
  pose proof (env_token_adopted environ_configured 1000 MetadataRaises
                token_cache_init (lit "ya29.a0") V eq_refl N) as [A B].
  split; [exact A|].
  apply (B environ_empty 4299 MetadataRaises). lia.
Defined.

(** X2. Whenever [get_access_token] returns a non-empty value, the
    cache it leaves holds that value with an expiry in the future: a
    call repeated at once returns it again and asks nobody. *)
Theorem token_returned_is_cached (env : environ) (now : Z)
    (metadata : metadata_reply) (tc : token_cache) :
  py_truthy (returned (get_access_token env now metadata tc)) = true ->
  value (store_after (get_access_token env now metadata tc))
  = returned (get_access_token env now metadata tc)
  /\ cache_valid now (store_after (get_access_token env now metadata tc))
  /\ forall env' metadata',
       get_access_token env' now metadata'
         (store_after (get_access_token env now metadata tc))
       = (returned (get_access_token env now metadata tc),
          store_after (get_access_token env now metadata tc), []).
Proof.
  intros T.
  assert (C : value (store_after (get_access_token env now metadata tc))
              = returned (get_access_token env now metadata tc)
              /\ cache_valid now
                   (store_after (get_access_token env now metadata tc))).
  { destruct (py_truthy (value tc) && (expires_at tc >? now)) eqn:H.
    - apply cache_valid_test in H.
      rewrite (get_access_token_hit env now metadata tc H).
      split; [reflexivity | exact H].
    - assert (V : ~ cache_valid now tc).
      { intros V. apply cache_valid_test in V. congruence. }
      destruct (opt_truthy (env_GOOGLE_OAUTH_ACCESS_TOKEN env)) eqn:E.
      + unfold get_access_token. rewrite H.
        destruct (env_GOOGLE_OAUTH_ACCESS_TOKEN env) as [[|c t]|];
          try discriminate E.
        split; [reflexivity|]. split; [reflexivity|].
        unfold store_after. simpl. lia.
      + revert T. rewrite (get_access_token_miss env now metadata tc V E).
        unfold returned, store_after. cbn [fst snd].
        destruct metadata as [|[|] [| |a e]]; try discriminate.
        destruct (expires_in_int e) as [n|] eqn:I.
        * destruct (Z_lt_le_dec (Z.max 30 (n - 30)) float_limit) as [L|L].
          -- rewrite (ask_metadata_success now a e n tc I L). cbn [fst snd].
             intros T. split; [reflexivity|]. split; [exact T | simpl; lia].
          -- rewrite (ask_metadata_overflow now a e n tc I L). discriminate.
        * unfold ask_metadata, read_metadata. simpl negb. cbv iota.
          rewrite I. discriminate. }
  destruct C as [C V]. split; [exact C|]. split; [exact V|].
  intros env' metadata'. rewrite <- C. apply get_access_token_hit, V.
Qed.

Lemma token_returned_is_cached_witness :
  py_truthy (returned (get_access_token environ_empty 1000
               (MetadataResponse true
                  (Dict (Some (PStr (lit "ya29.a0"))) (Some (Ret 3599))))
               token_cache_init)) = true
  /\ issued (get_access_token environ_empty 1000 MetadataRaises
               (store_after (get_access_token environ_empty 1000
                  (MetadataResponse true
                     (Dict (Some (PStr (lit "ya29.a0"))) (Some (Ret 3599))))
                  token_cache_init))) = [].
Proof.
  split; [reflexivity|].
  rewrite (proj2 (proj2 (token_returned_is_cached environ_empty 1000
                           (MetadataResponse true
                              (Dict (Some (PStr (lit "ya29.a0")))
                                    (Some (Ret 3599))))
                           token_cache_init eq_refl))
             environ_empty MetadataRaises).
  reflexivity.
Defined.

Lemma exact_below_float : exact_limit < float_limit.
Proof. reflexivity. Qed.

(** X3. While the clock reading and the lifetime are small enough for
    the float sum to be exact, a non-empty token obtained from the
    metadata service is cached for [max(30, expires_in - 30)] seconds,
    at least 30: before that time every call returns it without a
    request, and from that time on the metadata service is asked again
    (no override token being set). *)
Theorem metadata_token_window (env : environ) (now : Z)
    (tc : token_cache) (v : pyval) (expires_in : option (exc Z)) (n : Z) :
  ~ cache_valid now tc -> no_env_token env ->
  py_truthy v = true -> expires_in_int expires_in = Ret n ->
  Z.abs now + Z.max 30 (n - 30) < exact_limit ->
  get_access_token env now
    (MetadataResponse true (Dict (Some v) expires_in)) tc
  = (v, {| value := v; expires_at := now + Z.max 30 (n - 30) |},
     [GetMetadata metadata_url])
  /\ now + 30 <= now + Z.max 30 (n - 30)
  /\ forall later metadata',
       (later < now + Z.max 30 (n - 30) ->
        get_access_token env later metadata'
          {| value := v; expires_at := now + Z.max 30 (n - 30) |}
        = (v, {| value := v; expires_at := now + Z.max 30 (n - 30) |}, []))
       /\ (now + Z.max 30 (n - 30) <= later ->
           issued (get_access_token env later metadata'
                     {| value := v; expires_at := now + Z.max 30 (n - 30) |})
           = [GetMetadata metadata_url]).
Proof.
  intros V E T I X. split; [|split; [lia|]].
  - rewrite (get_access_token_miss env now _ tc V E).
    assert (L : Z.max 30 (n - 30) < float_limit).
    { pose proof exact_below_float. lia. }
    rewrite (ask_metadata_success now (Some v) expires_in n tc I L).
    reflexivity.
  - intros later metadata'. split; intros L.
    + apply get_access_token_hit. split; [exact T | exact L].
    + rewrite get_access_token_miss;
        [reflexivity | intros [_ Y]; simpl in Y; lia | exact E].
Qed.

Lemma metadata_token_window_witness :
  get_access_token environ_empty 1000
    (MetadataResponse true (Dict (Some (PStr (lit "ya29.a0"))) (Some (Ret 40))))
    token_cache_init
  = (PStr (lit "ya29.a0"),
     {| value := PStr (lit "ya29.a0"); expires_at := 1030 |},
     [GetMetadata metadata_url])
  /\ issued (get_access_token environ_empty 1030 MetadataRaises
               {| value := PStr (lit "ya29.a0"); expires_at := 1030 |})
     = [GetMetadata metadata_url].
Proof.
  assert (V : ~ cache_valid 1000 token_cache_init).
  { intros [T _]. discriminate T. }
  assert (X : Z.abs 1000 + Z.max 30 (40 - 30) < exact_limit)
    by (vm_compute; reflexivity).
  pose proof (metadata_token_window environ_empty 1000 token_cache_init
                (PStr (lit "ya29.a0")) (Some (Ret 40)) 40
                V eq_refl eq_refl eq_refl X) as [A [_ B]].
  split; [exact A|].
  apply (proj2 (B 1030 MetadataRaises)). simpl. lia.
Defined.

(** ** Inference client *)

(** [call_vertex] by cases, for a configured project. *)
Lemma call_vertex_cases (env : environ) (now : Z) (metadata : metadata_reply)
    (vertex : vertex_reply) (prompt : str) (tc : token_cache) :
  opt_truthy (GOOGLE_CLOUD_PROJECT env) = true ->
  call_vertex env now metadata vertex prompt tc =
    if py_truthy (returned (get_access_token env now metadata tc))
    then (vertex_text vertex,
          store_after (get_access_token env now metadata tc),
          issued (get_access_token env now metadata tc)
          ++ [PostVertex (endpoint env) prompt])
    else (empty_str,
          store_after (get_access_token env now metadata tc),
          issued (get_access_token env now metadata tc)).
Proof.
  intros P. unfold call_vertex. rewrite P. simpl negb. cbv iota.
  destruct (get_access_token env now metadata tc) as [[token tc'] asked].
  unfold returned, store_after, issued. simpl fst. simpl snd.
  destruct (py_truthy token); simpl negb; cbv iota; [|reflexivity].
  destruct vertex as [|[|] [v|]]; reflexivity.
Qed.

Lemma call_vertex_no_project (env : environ) (now : Z)
    (metadata : metadata_reply) (vertex : vertex_reply) (prompt : str)
    (tc : token_cache) :
  opt_truthy (GOOGLE_CLOUD_PROJECT env) = false ->
  call_vertex env now metadata vertex prompt tc = (empty_str, tc, []).
Proof. intros P. unfold call_vertex. rewrite P. reflexivity. Qed.

Lemma get_access_token_no_post (env : environ) (now : Z)
    (metadata : metadata_reply) (tc : token_cache) (e p : str) :
  ~ In (PostVertex e p) (issued (get_access_token env now metadata tc)).
Proof.
  destruct (get_access_token_issued env now metadata tc) as [E|[E _]];
    rewrite E; simpl; [tauto|]. intros [H|[]]. discriminate H.
Qed.

Lemma get_access_token_one_request (env : environ) (now : Z)
    (metadata : metadata_reply) (tc : token_cache) :
  (List.length (issued (get_access_token env now metadata tc)) <= 1)%nat.
Proof.
  destruct (get_access_token_issued env now metadata tc) as [E|[E _]];
    rewrite E; simpl; lia.
Qed.

(** X4. [call_vertex] posts to the model only when a project is
    configured and the credential provider returned a non-empty token;
    the one post goes to the endpoint of the environment and carries
    the prompt as given; at most two requests are issued in all, and
    without a token the result is the empty string. *)
Theorem call_vertex_requests (env : environ) (now : Z)
    (metadata : metadata_reply) (vertex : vertex_reply) (prompt : str)
    (tc : token_cache) :
  (forall e p,
      In (PostVertex e p)
         (issued (call_vertex env now metadata vertex prompt tc)) ->
      e = endpoint env /\ p = prompt
      /\ opt_truthy (GOOGLE_CLOUD_PROJECT env) = true
      /\ py_truthy (returned (get_access_token env now metadata tc)) = true)
  /\ (List.length (issued (call_vertex env now metadata vertex prompt tc))
      <= 2)%nat
  /\ (py_truthy (returned (get_access_token env now metadata tc)) = false ->
      returned (call_vertex env now metadata vertex prompt tc) = empty_str
      /\ forall e p,
           ~ In (PostVertex e p)
                (issued (call_vertex env now metadata vertex prompt tc))).
Proof.
  destruct (opt_truthy (GOOGLE_CLOUD_PROJECT env)) eqn:P.
  - rewrite (call_vertex_cases env now metadata vertex prompt tc P).
    pose proof (get_access_token_one_request env now metadata tc) as L.
    destruct (py_truthy (returned (get_access_token env now metadata tc)))
      eqn:T; unfold issued at 1 2 3, returned at 1; simpl fst; simpl snd.
    + split; [|split; [rewrite length_app; simpl; lia | discriminate]].
      intros e p H. apply in_app_or in H as [H|[H|[]]].
      * exfalso. exact (get_access_token_no_post env now metadata tc e p H).
      * injection H as -> ->. auto.
    + split; [|split; [lia|]].
      * intros e p H. exfalso.
        exact (get_access_token_no_post env now metadata tc e p H).
      * intros _. split; [reflexivity|]. intros e p.
        apply get_access_token_no_post.
  - rewrite (call_vertex_no_project env now metadata vertex prompt tc P).
    split; [intros e p []|]. split; [simpl; lia|].
    intros _. split; [reflexivity | intros e p []].
Qed.

Lemma call_vertex_requests_witness :
  py_truthy (returned (get_access_token environ_project_only
               1000 MetadataRaises token_cache_init)) = false
  /\ returned (call_vertex environ_project_only 1000 MetadataRaises
                 (VertexResponse true (Ret (PStr (lit "Hello"))))
                 bank_question token_cache_init) = empty_str.
Proof.
  split; [reflexivity|].
  exact (proj1 (proj2 (proj2 (call_vertex_requests environ_project_only
                                1000 MetadataRaises
                                (VertexResponse true (Ret (PStr (lit "Hello"))))
                                bank_question token_cache_init)) eq_refl)).
Defined.

(** X5. What [call_vertex] returns is the empty string or the text of
    a successful answer of the model endpoint: any other outcome there
    (an exception, a non-success status, a document of another shape)
    gives the empty string. *)
Theorem call_vertex_result (env : environ) (now : Z)
    (metadata : metadata_reply) (vertex : vertex_reply) (prompt : str)
    (tc : token_cache) :
  (returned (call_vertex env now metadata vertex prompt tc) <> empty_str ->
   vertex = VertexResponse true
              (Ret (returned (call_vertex env now metadata vertex prompt tc)))
   /\ opt_truthy (GOOGLE_CLOUD_PROJECT env) = true
   /\ py_truthy (returned (get_access_token env now metadata tc)) = true)
  /\ (vertex_failed vertex ->
      returned (call_vertex env now metadata vertex prompt tc) = empty_str).
Proof.
  destruct (opt_truthy (GOOGLE_CLOUD_PROJECT env)) eqn:P.
  - rewrite (call_vertex_cases env now metadata vertex prompt tc P).
    destruct (py_truthy (returned (get_access_token env now metadata tc)));
      unfold returned at 1 2 3; simpl fst.
    + split.
      * intros N. destruct vertex as [|[|] [v|]]; simpl in N; try congruence.
        auto.
      * intros F. destruct vertex as [|[|] [v|]]; try reflexivity.
        destruct F as [F|F]; discriminate F.
    + split; [congruence | reflexivity].
  - rewrite (call_vertex_no_project env now metadata vertex prompt tc P).
    split; [intros N; exfalso; apply N; reflexivity | reflexivity].
Qed.

Lemma call_vertex_result_witness :
  vertex_failed (VertexResponse false (Ret (PStr (lit "Hello"))))
  /\ returned (call_vertex environ_configured 1000 MetadataRaises
                 (VertexResponse false (Ret (PStr (lit "Hello"))))
                 bank_question token_cache_init) = empty_str.
Proof.
  assert (F : vertex_failed (VertexResponse false (Ret (PStr (lit "Hello")))))
    by (left; reflexivity).
  split; [exact F|].
  exact (proj2 (call_vertex_result environ_configured 1000 MetadataRaises
                  (VertexResponse false (Ret (PStr (lit "Hello"))))
                  bank_question token_cache_init) F).
Defined.

(** ** Entry point *)

(** [llm] by cases, for a configured project. *)
Lemma llm_cases (env : environ) (now : Z) (metadata : metadata_reply)
    (vertex : vertex_reply) (system user : str)
    (tc : token_cache) (c : blog_cache) :
  opt_truthy (GOOGLE_CLOUD_PROJECT env) = true ->
  llm env now metadata vertex system user tc c =
    (if py_truthy (returned (call_vertex env now metadata vertex
                               (prompt_of system user c) tc))
     then match returned (call_vertex env now metadata vertex
                            (prompt_of system user c) tc) with
          | PStr text => Ret (sanitize text)
          | _ => Raise
          end
     else Ret (local_fallback_reply user c),
     store_after (call_vertex env now metadata vertex
                    (prompt_of system user c) tc),
     issued (call_vertex env now metadata vertex (prompt_of system user c) tc)).
Proof.
  intros P. unfold llm. rewrite P. simpl negb. cbv iota.
  fold (prompt_of system user c).
  destruct (call_vertex env now metadata vertex (prompt_of system user c) tc)
    as [[text tc'] asked].
  unfold returned, store_after, issued. simpl fst. simpl snd.
  destruct (py_truthy text); simpl negb; cbv iota; [|reflexivity].
  destruct text; reflexivity.
Qed.

(** The text [call_vertex] returns, by cases. *)
Lemma call_vertex_returned (env : environ) (now : Z)
    (metadata : metadata_reply) (vertex : vertex_reply) (prompt : str)
    (tc : token_cache) :
  returned (call_vertex env now metadata vertex prompt tc) =
    if opt_truthy (GOOGLE_CLOUD_PROJECT env)
       && py_truthy (returned (get_access_token env now metadata tc))
    then vertex_text vertex else empty_str.
Proof.
  destruct (opt_truthy (GOOGLE_CLOUD_PROJECT env)) eqn:P.
  - rewrite (call_vertex_cases env now metadata vertex prompt tc P).
    destruct (py_truthy (returned (get_access_token env now metadata tc)));
      reflexivity.
  - rewrite (call_vertex_no_project env now metadata vertex prompt tc P).
    reflexivity.
Qed.

Lemma vertex_failed_text (vertex : vertex_reply) :
  vertex_failed vertex -> vertex_text vertex = empty_str.
Proof.
  destruct vertex as [|[|] [v|]]; try reflexivity.
  intros [F|F]; discriminate F.
Qed.

(** X6. Whatever goes wrong on the way to a model answer, the caller of
    [llm] gets the fallback reply and no exception: a credential
    provider without a token, a failed inference call (exception,
    non-success status, unreadable document), or an empty answer. *)
Theorem llm_falls_back (env : environ) (now : Z) (metadata : metadata_reply)
    (vertex : vertex_reply) (system user : str)
    (tc : token_cache) (c : blog_cache) :
  vertex_failed vertex
  \/ py_truthy (vertex_text vertex) = false
  \/ py_truthy (returned (get_access_token env now metadata tc)) = false ->
  returned (llm env now metadata vertex system user tc c)
  = Ret (local_fallback_reply user c).
Proof.
  intros H.
  destruct (opt_truthy (GOOGLE_CLOUD_PROJECT env)) eqn:P.
  - rewrite (llm_cases env now metadata vertex system user tc c P).
    unfold returned at 1. simpl fst.
    rewrite (call_vertex_returned env now metadata vertex _ tc), P.
    simpl andb.
    destruct (py_truthy (returned (get_access_token env now metadata tc)));
      [|reflexivity].
    assert (T : py_truthy (vertex_text vertex) = false).
    { destruct H as [F|[T|T]]; [|exact T | discriminate T].
      rewrite (vertex_failed_text vertex F). reflexivity. }
    rewrite T. reflexivity.
  - rewrite (llm_no_project env now metadata vertex system user tc c P).
    reflexivity.
Qed.

Lemma llm_falls_back_witness :
  vertex_failed VertexRaises
  /\ returned (llm environ_configured 1000 MetadataRaises VertexRaises
                 [] bank_question token_cache_init cache_init)
     = Ret (local_fallback_reply bank_question cache_init).
Proof.
  split; [exact I|].
  exact (llm_falls_back environ_configured 1000 MetadataRaises VertexRaises
           [] bank_question token_cache_init cache_init (or_introl I)).
Defined.

(** X7. An exception leaves [llm] in one case only: a project is
    configured, a token is there, and the text read off the model
    answer is a non-empty value that is no string (a number, a list, an
    object, [true]). The route then answers with status 500, and with
    status 200 in every other case. *)
Theorem llm_raises_iff (env : environ) (now : Z) (metadata : metadata_reply)
    (vertex : vertex_reply) (system user : str)
    (tc : token_cache) (c : blog_cache) :
  (returned (llm env now metadata vertex system user tc c) = Raise
   <-> opt_truthy (GOOGLE_CLOUD_PROJECT env) = true
       /\ py_truthy (returned (get_access_token env now metadata tc)) = true
       /\ py_truthy (vertex_text vertex) = true
       /\ ~ is_str (vertex_text vertex))
  /\ status (respond (returned
               (llm_json env now metadata vertex system user tc c)))
     = match returned (llm env now metadata vertex system user tc c) with
       | Ret _ => 200
       | Raise => 500
       end.
Proof.
  split.
  - destruct (opt_truthy (GOOGLE_CLOUD_PROJECT env)) eqn:P.
    + rewrite (llm_cases env now metadata vertex system user tc c P).
      unfold returned at 1. simpl fst.
      rewrite (call_vertex_returned env now metadata vertex _ tc), P.
      simpl andb.
      destruct (py_truthy (returned (get_access_token env now metadata tc))).
      * destruct (py_truthy (vertex_text vertex)) eqn:T.
        -- destruct (vertex_text vertex) as [| | |s| |] eqn:V;
             (split; [intros R; try discriminate R;
                      repeat split; intros [s' E]; discriminate E
                     | intros [_ [_ [_ N]]]; try reflexivity;
                       exfalso; apply N; exists s; reflexivity]).
        -- split; [discriminate | intros [_ [_ [X _]]]; discriminate X].
      * simpl. split; [discriminate | intros [_ [X _]]; discriminate X].
    + rewrite (llm_no_project env now metadata vertex system user tc c P).
      split; [discriminate | intros [X _]; discriminate X].
  - unfold llm_json.
    destruct (llm env now metadata vertex system user tc c) as [[[t|] tc'] a];
      reflexivity.
Qed.

(** X8. A model answer that [llm] passes on has no white space at
    either end. *)
Theorem sanitize_stripped (text : str) (c : Z) (r : str) :
  sanitize text = c :: r ->
  isspace c = false /\ isspace (last (c :: r) c) = false.
Proof.
  unfold sanitize, strip. set (t := filter allowed (replace_stars text)).
  intros E. split.
  - destruct (rstrip_split (lstrip t)) as [post E']. rewrite E in E'.
    exact (dropwhile_head isspace t c (r ++ post) E').
  - unfold rstrip in E.
    destruct (dropwhile isspace (rev (lstrip t))) as [|x xs] eqn:D;
      [discriminate E|].
    simpl in E. rewrite <- E, last_last.
    exact (dropwhile_head isspace (rev (lstrip t)) x xs D).
Qed.

Lemma sanitize_stripped_witness :
  sanitize (lit "  **Done** ") = 68 :: lit "one"
  /\ isspace 68 = false
  /\ isspace (last (68 :: lit "one") 68) = false.
Proof.
  split; [reflexivity|].
  exact (sanitize_stripped (lit "  **Done** ") 68 (lit "one") eq_refl).
Defined.

Lemma dropwhile_all (p : Z -> bool) (s : str) :
  Forall (fun c => p c = true) s -> dropwhile p s = [].
Proof.
  induction 1 as [|c r Hc _ IH]; simpl; [reflexivity|]. rewrite Hc. exact IH.
Qed.

Lemma no_star_has_stars (s : str) :
  Forall (fun c => c <> 42) s -> has_stars s = false.
Proof.
  induction 1 as [|c r Hc _ IH]; [reflexivity|].
  destruct r as [|d r']; [reflexivity|].
  rewrite has_stars_cons2, IH. apply Z.eqb_neq in Hc. rewrite Hc. reflexivity.
Qed.

(** Text made of dropped characters and white space sanitizes to the
    empty string. *)
Lemma sanitize_nothing_left (text : str) :
  Forall (fun c => allowed c = false \/ isspace c = true) text ->
  sanitize text = [].
Proof.
  intros F. unfold sanitize. rewrite replace_stars_id.
  - unfold strip, lstrip. rewrite dropwhile_all; [reflexivity|].
    apply Forall_forall. intros x Hx. apply filter_In in Hx as [Hx A].
    rewrite Forall_forall in F. destruct (F x Hx) as [N|S]; congruence.
  - apply no_star_has_stars. eapply Forall_impl; [|exact F].
    intros x [N|S] ->; discriminate.
Qed.

(** X9. When the model answers with a non-empty text in which every
    character is either white space or outside the whitelist, [llm]
    returns the empty string, not the fallback reply: the test for an
    empty answer comes before the sanitization. *)
Theorem llm_empty_answer (env : environ) (now : Z) (metadata : metadata_reply)
    (system user : str) (tc : token_cache) (c : blog_cache) (text : str) :
  opt_truthy (GOOGLE_CLOUD_PROJECT env) = true ->
  py_truthy (returned (get_access_token env now metadata tc)) = true ->
  text <> [] ->
  Forall (fun c => allowed c = false \/ isspace c = true) text ->
  returned (llm env now metadata (VertexResponse true (Ret (PStr text)))
              system user tc c) = Ret [].
Proof.
  intros P T N F.
  rewrite (llm_cases env now metadata _ system user tc c P).
  unfold returned at 1. simpl fst.
  rewrite (call_vertex_returned env now metadata _ _ tc), P, T.
  simpl andb. cbv iota. simpl vertex_text.
  destruct text as [|x text']; [congruence|].
  simpl py_truthy. cbv iota. rewrite (sanitize_nothing_left _ F). reflexivity.
Qed.

Lemma llm_empty_answer_witness :
  returned (llm environ_configured 1000 MetadataRaises
              (VertexResponse true (Ret (PStr [1055; 1088; 1080; 32; 10])))
              [] bank_question token_cache_init cache_init) = Ret [].
Proof.
  apply (llm_empty_answer environ_configured 1000 MetadataRaises
           [] bank_question token_cache_init cache_init
           [1055; 1088; 1080; 32; 10]).
  - reflexivity.
  - reflexivity.
  - discriminate.
  - repeat constructor; (left; reflexivity) || (right; reflexivity).
Defined.

(** X10. The one prompt [llm] posts holds the task instruction at its
    start, the current reference content inside and the user's
    question, as given, at its end. *)
Theorem llm_prompt (env : environ) (now : Z) (metadata : metadata_reply)
    (vertex : vertex_reply) (system user : str)
    (tc : token_cache) (c : blog_cache) (e p : str) :
  In (PostVertex e p)
     (issued (llm env now metadata vertex system user tc c)) ->
  e = endpoint env
  /\ p = prompt_of system user c
  /\ startswith system p
  /\ contains (get_context c) p
  /\ endswith user p.
Proof.
  intros H.
  assert (E : e = endpoint env /\ p = prompt_of system user c).
  { destruct (opt_truthy (GOOGLE_CLOUD_PROJECT env)) eqn:P.
    - rewrite (llm_cases env now metadata vertex system user tc c P) in H.
      unfold issued at 1 in H. simpl snd in H.
      rewrite (call_vertex_cases env now metadata vertex _ tc P) in H.
      destruct (py_truthy (returned (get_access_token env now metadata tc)));
        unfold issued at 1 in H; simpl snd in H.
      + apply in_app_or in H as [H|[H|[]]].
        * exfalso. exact (get_access_token_no_post env now metadata tc e p H).
        * injection H as -> ->. auto.
      + exfalso. exact (get_access_token_no_post env now metadata tc e p H).
    - rewrite (llm_no_project env now metadata vertex system user tc c P) in H.
      destruct H. }
  destruct E as [-> ->]. split; [reflexivity|]. split; [reflexivity|].
  unfold prompt_of. split; [|split].
  - eexists. rewrite <- !app_assoc. reflexivity.
  - exists (system ++ nl ++ nl ++ usa_prompt ++ nl ++ nl
            ++ lit "Reference data:" ++ nl),
           (nl ++ nl ++ lit "User question:" ++ nl ++ user).
    rewrite <- !app_assoc. reflexivity.
  - eexists. rewrite !app_assoc. reflexivity.
Qed.

Lemma llm_prompt_witness :
  In (PostVertex (endpoint environ_configured)
                 (prompt_of [] bank_question cache_init))
     (issued (llm environ_configured 1000 MetadataRaises VertexRaises
                [] bank_question token_cache_init cache_init))
  /\ endswith bank_question (prompt_of [] bank_question cache_init).
Proof.
  assert (H : In (PostVertex (endpoint environ_configured)
                             (prompt_of [] bank_question cache_init))
                 (issued (llm environ_configured 1000 MetadataRaises
                            VertexRaises [] bank_question
                            token_cache_init cache_init))).
  { left. reflexivity. }
  split; [exact H|].
  exact (proj2 (proj2 (proj2 (proj2
           (llm_prompt environ_configured 1000 MetadataRaises VertexRaises
              [] bank_question token_cache_init cache_init _ _ H))))).
Defined.

(** ** Reference content cache *)

Lemma FALLBACK_length : Z.of_nat (List.length FALLBACK) = 1031.
Proof. reflexivity. Qed.

Lemma prefix_length (n : Z) (s : str) :
  0 <= n -> Z.of_nat (List.length (prefix n s)) <= n.
Proof.
  intros Hn. unfold prefix.
  pose proof (firstn_le_length (Z.to_nat n) s). lia.
Qed.

Lemma _fetch_blog_bounded (blog : str -> blog_reply) (now : Z)
    (c : blog_cache) :
  Z.of_nat (List.length (content c)) <= 6000 ->
  Z.of_nat (List.length (content (fst (_fetch_blog blog now c)))) <= 6000.
Proof.
  intros B. rewrite _fetch_blog_cases.
  destruct (fst (fetch_loop blog urls [])) as [combined|].
  - destruct (truthy combined); [|exact B].
    apply prefix_length. lia.
  - cbn [content]. rewrite FALLBACK_length. lia.
Qed.

(** X11. The cached content never exceeds 6000 characters: a cache
    within that bound stays within it over any number of refresh
    rounds, the empty cache of the start in particular, and so does
    what [get_context] returns. *)
Theorem refresh_content_bounded (rounds : list ((str -> blog_reply) * Z))
    (c : blog_cache) :
  Z.of_nat (List.length (content c)) <= 6000 ->
  Z.of_nat (List.length (content (_bg_refresh rounds c))) <= 6000
  /\ Z.of_nat (List.length (get_context (_bg_refresh rounds c))) <= 6000
  /\ Z.of_nat (List.length (content (_bg_refresh rounds cache_init))) <= 6000.
Proof.
  assert (G : forall rs c0,
             Z.of_nat (List.length (content c0)) <= 6000 ->
             Z.of_nat (List.length (content (_bg_refresh rs c0))) <= 6000).
  { induction rs as [|[blog now] rest IH]; intros c0 B; [exact B|].
    simpl. apply IH, _fetch_blog_bounded, B. }
  intros B. split; [exact (G rounds c B)|]. split.
  - unfold get_context.
    destruct (truthy (content (_bg_refresh rounds c))); cbn [negb];
      [exact (G rounds c B) | rewrite FALLBACK_length; lia].
  - apply G. simpl. lia.
Qed.

Lemma refresh_content_bounded_witness :
  Z.of_nat (List.length (content cache_init)) <= 6000
  /\ Z.of_nat (List.length
       (content (_bg_refresh
                   [(fun _ => BlogResponse true Raise, 3600);
                    (fun _ => BlogResponse false (Ret []), 7200)]
                   cache_init))) <= 6000.
Proof.
  assert (B : Z.of_nat (List.length (content cache_init)) <= 6000)
    by (simpl; lia).
  split; [exact B|].
  exact (proj1 (refresh_content_bounded
                  [(fun _ => BlogResponse true Raise, 3600);
                   (fun _ => BlogResponse false (Ret []), 7200)]
                  cache_init B)).
Defined.

Lemma fetch_loop_raises (blog : str -> blog_reply) (todo : list str)
    (combined : str) :
  fst (fetch_loop blog todo combined) = Raise
  <-> exists url, In url todo /\ source_raises (blog url).
Proof.
  revert combined. induction todo as [|url rest IH]; intros combined.
  - simpl. split; [discriminate | intros [u [[] _]]].
  - simpl. destruct (blog url) as [|[|] [ps|]] eqn:B; simpl negb; cbv iota.
    + split; [intros _ | reflexivity].
      exists url. split; [left; reflexivity | rewrite B; left; reflexivity].
    + specialize (IH (fold_left add_post (firstn 15 ps) combined)).
      destruct (fetch_loop blog rest _) as [r asked]. simpl fst in *.
      rewrite IH. split; intros [u [Hu R]].
      * exists u. split; [right; exact Hu | exact R].
      * destruct Hu as [<-|Hu]; [|exists u; split; assumption].
        rewrite B in R. destruct R as [R|R]; discriminate R.
    + split; [intros _ | reflexivity].
      exists url. split; [left; reflexivity | rewrite B; right; reflexivity].
    + specialize (IH combined).
      destruct (fetch_loop blog rest combined) as [r asked]. simpl fst in *.
      rewrite IH. split; intros [u [Hu R]].
      * exists u. split; [right; exact Hu | exact R].
      * destruct Hu as [<-|Hu]; [|exists u; split; assumption].
        rewrite B in R. destruct R as [R|R]; discriminate R.
    + specialize (IH combined).
      destruct (fetch_loop blog rest combined) as [r asked]. simpl fst in *.
      rewrite IH. split; intros [u [Hu R]].
      * exists u. split; [right; exact Hu | exact R].
      * destruct Hu as [<-|Hu]; [|exists u; split; assumption].
        rewrite B in R. destruct R as [R|R]; discriminate R.
Qed.

(** X12. The fetch raises exactly when the request to one of the two
    sources raises or the parsing of one that answered with success
    does. The cache content is then the fallback corpus, whatever the
    other source delivered, and the time of the last refresh is kept. *)
Theorem fetch_raises_iff (blog : str -> blog_reply) (now : Z)
    (c : blog_cache) :
  (fetch_raises blog
   <-> exists url, In url urls /\ source_raises (blog url))
  /\ ((exists url, In url urls /\ source_raises (blog url)) ->
      fst (_fetch_blog blog now c)
      = {| content := FALLBACK; last_refresh := last_refresh c |}).
Proof.
  split; [apply fetch_loop_raises|].
  intros H. apply (proj2 (fetch_loop_raises blog urls [])) in H.
  rewrite _fetch_blog_cases, H. reflexivity.
Qed.

Lemma fetch_raises_iff_witness :
  (exists url, In url urls
     /\ source_raises
          (if Str.eqb url (lit "https://abdyasam.blogspot.com/")
           then BlogResponse true (Ret [lit "A post"])
           else BlogRaises))
  /\ fst (_fetch_blog
            (fun url =>
               if Str.eqb url (lit "https://abdyasam.blogspot.com/")
               then BlogResponse true (Ret [lit "A post"])
               else BlogRaises)
            7200 {| content := lit "An older post"; last_refresh := 3600 |})
     = {| content := FALLBACK; last_refresh := 3600 |}.
Proof.
  assert (H : exists url, In url urls
     /\ source_raises
          (if Str.eqb url (lit "https://abdyasam.blogspot.com/")
           then BlogResponse true (Ret [lit "A post"])
           else BlogRaises)).
  { exists (lit "https://abdyasam.blogspot.com/search?max-results=20").
    split; [right; left; reflexivity | left; reflexivity]. }
  split; [exact H|].
  exact (proj2 (fetch_raises_iff _ 7200
                  {| content := lit "An older post"; last_refresh := 3600 |})
               H).
Defined.

Lemma add_post_blocks (posts : list str) (combined : str) :
  fold_left add_post posts combined
  = combined ++ List.concat (map block_of (filter long_post posts)).
Proof.
  revert combined. induction posts as [|t posts IH]; intros combined.
  - simpl. rewrite app_nil_r. reflexivity.
  - simpl. rewrite IH. unfold add_post, long_post.
    destruct (100 <? Z.of_nat (List.length t)); [|reflexivity].
    simpl. unfold block_of. rewrite <- !app_assoc. reflexivity.
Qed.

Lemma fetch_loop_blocks (blog : str -> blog_reply) (todo : list str)
    (combined : str) :
  (forall url, In url todo -> ~ source_raises (blog url)) ->
  fetch_loop blog todo combined
  = (Ret (combined
          ++ List.concat (map block_of
                       (filter long_post
                          (flat_map (fun u => source_posts (blog u)) todo)))),
     map GetBlog todo).
Proof.
  revert combined. induction todo as [|url rest IH]; intros combined N.
  - simpl. rewrite app_nil_r. reflexivity.
  - assert (N' : forall u, In u rest -> ~ source_raises (blog u)).
    { intros u Hu. apply N. right. exact Hu. }
    pose proof (N url (or_introl eq_refl)) as Nu.
    simpl. destruct (blog url) as [|[|] [ps|]];
      simpl negb; cbv iota.
    + exfalso. apply Nu. left. reflexivity.
    + rewrite (IH _ N'), add_post_blocks. cbn [source_posts].
      rewrite filter_app, map_app, concat_app, <- app_assoc. reflexivity.
    + exfalso. apply Nu. right. reflexivity.
    + rewrite (IH _ N'). reflexivity.
    + rewrite (IH _ N'). reflexivity.
Qed.

(** X13. When no source raises, both URLs are requested, in order, and
    the text collected is the concatenation, in order, of one block per
    post longer than 100 characters among the first 15 of each source
    that answered with success: the first 800 characters of the post
    followed by the separator line. A source with a non-success status
    contributes nothing and does not stop the loop. *)
Theorem fetch_collects_blocks (blog : str -> blog_reply) (now : Z)
    (c : blog_cache) :
  (forall url, In url urls -> ~ source_raises (blog url)) ->
  fetch_loop blog urls []
  = (Ret (List.concat (map block_of
                    (filter long_post
                       (flat_map (fun u => source_posts (blog u)) urls)))),
     map GetBlog urls)
  /\ snd (_fetch_blog blog now c) = map GetBlog urls.
Proof.
  intros N. pose proof (fetch_loop_blocks blog urls [] N) as E.
  split; [exact E|].
  unfold _fetch_blog. rewrite E.
  destruct (truthy _); reflexivity.
Qed.

Lemma fetch_collects_blocks_witness :
  fetch_loop (fun _ => BlogResponse false (Ret [lit "ignored"])) urls []
  = (Ret [], map GetBlog urls).
Proof.
  apply (fetch_collects_blocks
           (fun _ => BlogResponse false (Ret [lit "ignored"])) 0 cache_init).
  intros url _ [R|R]; discriminate R.
Defined.

(** X14. After a fetch that raised, the fallback reply is the one of
    the start, whatever the cache held before. *)
Theorem fallback_reply_after_exception (blog : str -> blog_reply) (now : Z)
    (c : blog_cache) (user : str) :
  fetch_raises blog ->
  local_fallback_reply user (fst (_fetch_blog blog now c))
  = local_fallback_reply user cache_init.
Proof.
  unfold fetch_raises. intros R. rewrite _fetch_blog_cases, R.
  reflexivity.
Qed.

Lemma fallback_reply_after_exception_witness :
  local_fallback_reply bank_question
    (fst (_fetch_blog (fun _ => BlogRaises) 7200
            {| content := lit "An older post"; last_refresh := 3600 |}))
  = local_fallback_reply bank_question cache_init.
Proof.
  exact (fallback_reply_after_exception (fun _ => BlogRaises) 7200
           {| content := lit "An older post"; last_refresh := 3600 |}
           bank_question eq_refl).
Defined.

(** ** Fallback responder *)

Lemma filter_all_true (A : Type) (f : A -> bool) (l : list A) :
  Forall (fun x => f x = true) l -> filter f l = l.
Proof.
  induction 1 as [|x l Hx _ IH]; simpl; [reflexivity|].
  rewrite Hx, IH. reflexivity.
Qed.

Lemma excerpt_lines_split (context : str) :
  splitlines (join_nl (excerpt_lines context)) = excerpt_lines context.
Proof.
  apply splitlines_join. apply Forall_forall. intros l Hl.
  pose proof (excerpt_lines_kept context) as K.
  rewrite Forall_forall in K. destruct (K l Hl) as [Hin Hk].
  split; [exact (keep_line_nonempty l Hk)|].
  pose proof (splitlines_from_nobreak context [] (Forall_nil _)) as N.
  rewrite Forall_forall in N. exact (N l Hin).
Qed.

(** X15. The "Quick Info" part of the fallback reply, split into lines
    again, is the list of the lines chosen, at most 8, none blank and
    none a separator; and taking the excerpt of an excerpt changes
    nothing. *)
Theorem sample_of_lines (context : str) :
  splitlines (sample_of context) = excerpt_lines context
  /\ (List.length (splitlines (sample_of context)) <= 8)%nat
  /\ Forall (fun l => keep_line l = true) (splitlines (sample_of context))
  /\ sample_of (sample_of context) = sample_of context.
Proof.
  assert (S : splitlines (sample_of context) = excerpt_lines context).
  { rewrite sample_of_excerpt. apply excerpt_lines_split. }
  assert (K : Forall (fun l => keep_line l = true) (excerpt_lines context)).
  { eapply Forall_impl; [|apply excerpt_lines_kept]. intros l [_ H]. exact H. }
  split; [exact S|]. rewrite S.
  split; [apply excerpt_lines_short|]. split; [exact K|].
  unfold sample_of at 1. rewrite S, (filter_all_true _ _ _ K).
  rewrite excerpt_lines_split.
  rewrite firstn_all2; [|apply excerpt_lines_short].
  symmetry. apply sample_of_excerpt.
Qed.

(** ** Request validation *)

Lemma dict_get_absent (d : items_t) (key : str) (default : pyval) :
  dict_has d key = false -> dict_get d key default = default.
Proof.
  induction d as [|[k v] rest IH]; simpl; [reflexivity|].
  destruct (Str.eqb k key); simpl; [discriminate | exact IH].
Qed.

Lemma dict_get_In (d : items_t) (key : str) (default : pyval) :
  dict_has d key = true -> In (key, dict_get d key default) d.
Proof.
  induction d as [|[k v] rest IH]; simpl; [discriminate|].
  destruct (Str.eqb k key) eqn:E; simpl.
  - intros _. left. apply eqb_eq in E. subst k. reflexivity.
  - intros H. right. exact (IH H).
Qed.

Lemma blank_field (d : items_t) (field : str) :
  blank (dict_get d field (PStr [])) = false
  <-> dict_has d field = true
      /\ forall s, dict_get d field (PStr []) = PStr s -> strip s <> [].
Proof.
  split.
  - intros B. split.
    + destruct (dict_has d field) eqn:H; [reflexivity|].
      rewrite (dict_get_absent d field (PStr []) H) in B. discriminate B.
    + intros s E. rewrite E in B. simpl in B.
      apply truthy_true. destruct (truthy (strip s)); [reflexivity|discriminate].
  - intros [_ S]. destruct (dict_get d field (PStr [])) as [| | |s| |];
      try reflexivity.
    simpl. specialize (S s eq_refl). apply truthy_true in S. rewrite S.
    reflexivity.
Qed.

Lemma no_field_too_long (d : items_t) :
  existsb (fun kv => too_long (snd kv)) d = false
  <-> forall k s, In (k, PStr s) d ->
        Z.of_nat (List.length s) <= _MAX_FIELD_LENGTH.
Proof.
  split.
  - intros E k s H.
    destruct (Z.ltb_spec _MAX_FIELD_LENGTH (Z.of_nat (List.length s))) as [L|L];
      [|exact L].
    assert (X : existsb (fun kv => too_long (snd kv)) d = true).
    { apply existsb_exists. exists (k, PStr s). split; [exact H|].
      simpl. apply Z.ltb_lt. exact L. }
    congruence.
  - intros H. apply not_true_is_false. intros E.
    apply existsb_exists in E as [[k v] [Hin T]].
    destruct v as [| | |s| |]; try discriminate T.
    simpl in T. apply Z.ltb_lt in T. specialize (H k s Hin). lia.
Qed.

Lemma nothing_missing (d : items_t) (required_fields : list str) :
  filter (fun field => blank (dict_get d field (PStr []))) required_fields = []
  <-> forall field, In field required_fields ->
        blank (dict_get d field (PStr [])) = false.
Proof.
  induction required_fields as [|f rest IH]; simpl.
  - split; [intros _ field [] | reflexivity].
  - destruct (blank (dict_get d f (PStr []))) eqn:B.
    + split; [discriminate|]. intros H.
      specialize (H f (or_introl eq_refl)). congruence.
    + rewrite IH. split.
      * intros H field [<-|Hin]; [exact B | exact (H field Hin)].
      * intros H field Hin. apply H. right. exact Hin.
Qed.

(** When [require_json] returns. *)
Lemma require_json_Done (required_fields : list str) (data : pyval)
    (d : items_t) :
  require_json required_fields data = Done d
  <-> data = PDict d /\ acceptable required_fields d.
Proof.
  unfold acceptable. split.
  - destruct data as [| | | | |d0]; try discriminate. unfold require_json.
    destruct (filter _ required_fields) as [|m ms] eqn:M; [|discriminate].
    destruct (existsb _ d0) eqn:L; [discriminate|].
    intros [= <-]. split; [reflexivity|]. split.
    + intros field Hin. apply blank_field.
      exact (proj1 (nothing_missing d0 required_fields) M field Hin).
    + apply no_field_too_long, L.
  - intros [-> [R L]]. unfold require_json.
    assert (M : filter (fun field => blank (dict_get d field (PStr [])))
                       required_fields = []).
    { apply nothing_missing. intros field Hin. apply blank_field, R, Hin. }
    rewrite M. apply no_field_too_long in L. rewrite L. reflexivity.
Qed.

(** X16. [require_json] accepts a body exactly when it is a JSON
    object in which every required field is present and, if its value
    is a string, not blank, and in which no string value at the top
    level is longer than 2000 characters; it then returns the object as
    it came. A required field whose value is no string (null, a
    number, a list) counts as present. *)
Theorem require_json_accepts (required_fields : list str) (data : pyval)
    (d : items_t) :
  require_json required_fields data = Done d
  <-> data = PDict d /\ acceptable required_fields d.
Proof. exact (require_json_Done required_fields data d). Qed.

(** X17. Whatever the body, [require_json] raises nothing but
    [BadRequestError], answered with status 400, and the message is one
    of three: the body is no JSON object; some required fields, named
    in the message, are missing or blank; a field is too long. Missing
    fields are reported before a field that is too long. *)
Theorem require_json_rejects (required_fields : list str) (data : pyval) :
  (forall d, require_json required_fields data <> Done d) ->
  status (respond (require_json required_fields data)) = 400
  /\ ((forall d, data <> PDict d)
      /\ require_json required_fields data
         = BadRequestError (lit "JSON body required.")
      \/ exists d missing,
           data = PDict d
           /\ missing
              = filter (fun field => negb (dict_has d field)
                                     || blank (dict_get d field (PStr [])))
                       required_fields
           /\ (missing <> [] ->
               require_json required_fields data
               = BadRequestError
                   (lit "Missing field(s): " ++ join (lit ", ") missing))
           /\ (missing = [] ->
               require_json required_fields data
               = BadRequestError
                   (lit "Request field exceeds maximum length (2000 characters).")
               /\ exists k s, In (k, PStr s) d
                    /\ _MAX_FIELD_LENGTH < Z.of_nat (List.length s))).
Proof.
  intros N. destruct data as [| | | | |d];
    try (split; [reflexivity|]; left; split; [discriminate | reflexivity]).
  assert (F : filter (fun field => negb (dict_has d field)
                                   || blank (dict_get d field (PStr [])))
                     required_fields
              = filter (fun field => blank (dict_get d field (PStr [])))
                       required_fields).
  { apply filter_ext. intros f. destruct (dict_has d f) eqn:H; [reflexivity|].
    rewrite (dict_get_absent d f (PStr []) H). reflexivity. }
  unfold require_json in *. rewrite <- F in *.
  destruct (filter _ required_fields) as [|m ms] eqn:M.
  - destruct (existsb (fun kv => too_long (snd kv)) d) eqn:L.
    + split; [reflexivity|]. right. exists d, []. split; [reflexivity|].
      split; [symmetry; exact M|]. split; [congruence|]. intros _.
      split; [reflexivity|].
      apply existsb_exists in L as [[k v] [Hin T]].
      destruct v as [| | |s| |]; try discriminate T.
      exists k, s. split; [exact Hin | apply Z.ltb_lt, T].
    + exfalso. exact (N d eq_refl).
  - split; [reflexivity|]. right. exists d, (m :: ms).
    split; [reflexivity|]. split; [symmetry; exact M|].
    split; [reflexivity | discriminate].
Qed.

Lemma require_json_rejects_witness :
  status (respond (require_json [lit "message"]
                     (PDict [(lit "contact", PStr (lit "a@b.c"))]))) = 400
  /\ require_json [lit "message"] (PList [])
     <> Done [].
Proof.
  split; [|discriminate].
  apply (require_json_rejects [lit "message"]
           (PDict [(lit "contact", PStr (lit "a@b.c"))])).
  intros d. discriminate.
Defined.

(** ** Feedback route *)

(** [do_feedback] by cases. *)
Lemma do_feedback_cases (now : Z) (data : pyval) (store : list feedback) :
  (exists d m c,
      data = PDict d /\ acceptable [lit "message"] d
      /\ dict_get d (lit "message") (PStr []) = PStr m
      /\ dict_get d (lit "contact") (PStr []) = PStr c
      /\ do_feedback now data store
         = (Done [(lit "result", PStr thanks);
                  (lit "total_feedback",
                   PInt (Z.of_nat (List.length
                      (deque_append store
                         {| message := strip m; contact := strip c;
                            ts := now |}))))],
            deque_append store
              {| message := strip m; contact := strip c; ts := now |}))
  \/ (exists d,
         data = PDict d /\ acceptable [lit "message"] d
         /\ (~ is_str (dict_get d (lit "message") (PStr []))
             \/ ~ is_str (dict_get d (lit "contact") (PStr [])))
         /\ do_feedback now data store = (Unhandled, store))
  \/ (exists msg,
         (forall d, require_json [lit "message"] data <> Done d)
         /\ do_feedback now data store = (BadRequestError msg, store)).
Proof.
  unfold do_feedback.
  destruct (require_json [lit "message"] data) as [d|msg|] eqn:R.
  - apply require_json_Done in R as [-> A].
    destruct (dict_get d (lit "message") (PStr [])) as [| | |m| |] eqn:M;
      try (right; left; exists d; split; [reflexivity|]; split; [exact A|];
           split; [left; intros [s E]; rewrite M in E; discriminate E
                  | reflexivity]).
    destruct (dict_get d (lit "contact") (PStr [])) as [| | |c| |] eqn:C;
      try (right; left; exists d; split; [reflexivity|]; split; [exact A|];
           split; [right; intros [s E]; rewrite C in E; discriminate E
                  | reflexivity]).
    left. exists d, m, c. split; [reflexivity|]. split; [exact A|].
    split; [exact M|]. split; [exact C | reflexivity].
  - right. right. exists msg. split; [discriminate | reflexivity].
  - exfalso. revert R. unfold require_json.
    destruct data; try discriminate.
    destruct (filter _ _); [|discriminate].
    destruct (existsb _ _); discriminate.
Qed.

Lemma deque_append_length (store : list feedback) (e : feedback) :
  Z.of_nat (List.length store) <= feedback_maxlen ->
  Z.of_nat (List.length (deque_append store e))
  = Z.min feedback_maxlen (Z.of_nat (List.length store) + 1).
Proof.
  unfold deque_append, feedback_maxlen. intros B.
  rewrite length_app. cbn [List.length].
  destruct (Z.ltb_spec 500 (Z.of_nat (List.length store + 1))) as [L|L].
  - destruct store as [|x xs]; cbn [List.length app tl] in *; [lia|].
    rewrite length_app. cbn [List.length]. lia.
  - rewrite length_app. cbn [List.length]. lia.
Qed.

Lemma deque_append_In (store : list feedback) (e x : feedback) :
  In x (deque_append store e) -> In x store \/ x = e.
Proof.
  unfold deque_append. intros H.
  assert (H' : In x (store ++ [e])).
  { destruct (feedback_maxlen <? Z.of_nat (List.length (store ++ [e])));
      [|exact H].
    destruct (store ++ [e]); [exact H | right; exact H]. }
  apply in_app_or in H' as [H'|[H'|[]]]; [left; exact H' | right; congruence].
Qed.

Lemma do_feedback_bounded (now : Z) (data : pyval) (store : list feedback) :
  Z.of_nat (List.length store) <= feedback_maxlen ->
  Z.of_nat (List.length (snd (do_feedback now data store))) <= feedback_maxlen.
Proof.
  intros B.
  destruct (do_feedback_cases now data store)
    as [[d [m [c [_ [_ [_ [_ E]]]]]]]|[[d [_ [_ [_ E]]]]|[msg [_ E]]]];
    rewrite E; simpl snd; [|exact B|exact B].
  rewrite (deque_append_length store _ B). lia.
Qed.

(** X18. The feedback store never holds more than 500 entries: a store
    within the bound stays within it over any sequence of requests, and
    a request that is accepted reports as [total_feedback] the size of
    the store it leaves, the smaller of 500 and the previous size plus
    one. *)
Theorem feedback_store_bounded (requests : list (Z * pyval))
    (store : list feedback) :
  Z.of_nat (List.length store) <= feedback_maxlen ->
  Z.of_nat (List.length (feedback_run requests store)) <= feedback_maxlen
  /\ forall now data fields,
       fst (do_feedback now data store) = Done fields ->
       dict_get fields (lit "total_feedback") PNone
       = PInt (Z.of_nat (List.length (snd (do_feedback now data store))))
       /\ Z.of_nat (List.length (snd (do_feedback now data store)))
          = Z.min feedback_maxlen (Z.of_nat (List.length store) + 1).
Proof.
  intros B. split.
  - revert store B. induction requests as [|[now data] rest IH];
      intros store B; [exact B|].
    simpl. apply IH, do_feedback_bounded, B.
  - intros now data fields.
    destruct (do_feedback_cases now data store)
      as [[d [m [c [_ [_ [_ [_ E]]]]]]]|[[d [_ [_ [_ E]]]]|[msg [_ E]]]];
      rewrite E; simpl fst; simpl snd; try discriminate.
    intros [= <-]. split; [reflexivity|].
    apply deque_append_length, B.
Qed.

Lemma feedback_store_bounded_witness :
  Z.of_nat (List.length (@nil feedback)) <= feedback_maxlen
  /\ Z.of_nat (List.length
       (feedback_run
          [(1000, PDict [(lit "message", PStr (lit " Nice guide "))]);
           (1001, PList [])]
          [])) <= feedback_maxlen.
Proof.
  assert (B : Z.of_nat (List.length (@nil feedback)) <= feedback_maxlen)
    by (unfold feedback_maxlen; simpl; lia).
  split; [exact B|].
  exact (proj1 (feedback_store_bounded
                  [(1000, PDict [(lit "message", PStr (lit " Nice guide "))]);
                   (1001, PList [])]
                  [] B)).
Defined.

Lemma strip_length_bound (s : str) (n : Z) :
  Z.of_nat (List.length s) <= n -> Z.of_nat (List.length (strip s)) <= n.
Proof. pose proof (strip_length s). lia. Qed.

Lemma accepted_string_bound (d : items_t) (key : str) (s : str) :
  acceptable [lit "message"] d ->
  dict_get d key (PStr []) = PStr s ->
  Z.of_nat (List.length s) <= _MAX_FIELD_LENGTH.
Proof.
  intros [_ L] E. destruct (dict_has d key) eqn:H.
  - apply (L key s). rewrite <- E. apply dict_get_In, H.
  - rewrite (dict_get_absent d key (PStr []) H) in E. injection E as <-.
    unfold _MAX_FIELD_LENGTH. simpl. lia.
Qed.

Lemma do_feedback_clean (now : Z) (data : pyval) (store : list feedback) :
  Forall clean_entry store ->
  Forall clean_entry (snd (do_feedback now data store)).
Proof.
  intros F.
  destruct (do_feedback_cases now data store)
    as [[d [m [c [_ [A [M [C E]]]]]]]|[[d [_ [_ [_ E]]]]|[msg [_ E]]]];
    rewrite E; simpl snd; [|exact F|exact F].
  apply Forall_forall. intros x Hx.
  apply deque_append_In in Hx as [Hx| ->];
    [rewrite Forall_forall in F; exact (F x Hx)|].
  unfold clean_entry. cbn [message contact].
  split; [|split; [apply strip_idem|split; [apply strip_idem|split]]].
  - exact (proj2 (proj1 A (lit "message") (or_introl eq_refl)) m M).
  - apply strip_length_bound, (accepted_string_bound d (lit "message") m A M).
  - apply strip_length_bound, (accepted_string_bound d (lit "contact") c A C).
Qed.

(** X19. Every entry the feedback route stores has a message that is
    not empty; message and contact are stored without white space at
    either end and are at most 2000 characters long. This holds of the
    whole store after any sequence of requests. *)
Theorem feedback_entries_clean (requests : list (Z * pyval))
    (store : list feedback) :
  Forall clean_entry store ->
  Forall clean_entry (feedback_run requests store).
Proof.
  revert store. induction requests as [|[now data] rest IH];
    intros store F; [exact F|].
  simpl. apply IH, do_feedback_clean, F.
Qed.

Lemma feedback_entries_clean_witness :
  Forall clean_entry
    (feedback_run
       [(1000, PDict [(lit "message", PStr (lit " Nice guide "));
                      (lit "contact", PStr (lit "a@b.c "))])]
       []).
Proof.
  exact (feedback_entries_clean
           [(1000, PDict [(lit "message", PStr (lit " Nice guide "));
                          (lit "contact", PStr (lit "a@b.c "))])]
           [] (Forall_nil _)).
Defined.

(** X20. An accepted feedback goes to the right end of the store, with
    the time of the request; when the store already holds 500 entries
    the oldest one is dropped and the others keep their order. A
    request that is not answered with success leaves the store as it
    was. *)
Theorem feedback_append (now : Z) (data : pyval) (store : list feedback) :
  Z.of_nat (List.length store) <= feedback_maxlen ->
  match fst (do_feedback now data store) with
  | Done _ =>
      exists e,
        ts e = now
        /\ snd (do_feedback now data store)
           = (if Z.of_nat (List.length store) <? feedback_maxlen
              then store else tl store) ++ [e]
  | _ => snd (do_feedback now data store) = store
  end.
Proof.
  intros B.
  destruct (do_feedback_cases now data store)
    as [[d [m [c [_ [_ [_ [_ E]]]]]]]|[[d [_ [_ [_ E]]]]|[msg [_ E]]]];
    rewrite E; simpl fst; simpl snd; cbv iota; try reflexivity.
  exists {| message := strip m; contact := strip c; ts := now |}.
  split; [reflexivity|].
  unfold deque_append, feedback_maxlen in *. rewrite length_app.
  cbn [List.length].
  destruct (Z.ltb_spec (Z.of_nat (List.length store)) 500) as [L|L];
    destruct (Z.ltb_spec 500 (Z.of_nat (List.length store + 1))) as [L'|L'];
    try lia; [reflexivity|].
  destruct store as [|x xs]; [simpl in L; lia | reflexivity].
Qed.

Lemma feedback_append_witness :
  exists e,
    ts e = 1000
    /\ snd (do_feedback 1000
              (PDict [(lit "message", PStr (lit " Nice guide "))])
              [{| message := lit "First"; contact := []; ts := 900 |}])
       = [{| message := lit "First"; contact := []; ts := 900 |}] ++ [e].
Proof.
  assert (B : Z.of_nat (List.length
                [{| message := lit "First"; contact := []; ts := 900 |}])
              <= feedback_maxlen)
    by (unfold feedback_maxlen; simpl; lia).
  exact (feedback_append 1000
           (PDict [(lit "message", PStr (lit " Nice guide "))])
           [{| message := lit "First"; contact := []; ts := 900 |}] B).
Defined.

(** X21. A body that passes validation but whose message or contact is
    no string (a number, a list, null for the contact) makes the route
    raise when it strips the value: the answer has status 500 and the
    store is left as it was. *)
Theorem feedback_not_a_string (now : Z) (d : items_t)
    (store : list feedback) :
  acceptable [lit "message"] d ->
  ~ is_str (dict_get d (lit "message") (PStr []))
  \/ ~ is_str (dict_get d (lit "contact") (PStr [])) ->
  do_feedback now (PDict d) store = (Unhandled, store)
  /\ status (respond (fst (do_feedback now (PDict d) store))) = 500.
Proof.
  intros A N.
  assert (E : do_feedback now (PDict d) store = (Unhandled, store)).
  { destruct (do_feedback_cases now (PDict d) store)
      as [[d' [m [c [D [_ [M [C _]]]]]]]|[[d' [_ [_ [_ E]]]]|[msg [R _]]]].
    - injection D as <-. exfalso.
      destruct N as [N|N]; apply N; eexists; eassumption.
    - exact E.
    - exfalso. apply (R d). apply require_json_Done. split; [reflexivity|].
      exact A. }
  split; [exact E|]. rewrite E. reflexivity.
Qed.

Lemma feedback_not_a_string_witness :
  acceptable [lit "message"]
    [(lit "message", PStr (lit "Nice guide")); (lit "contact", PNone)]
  /\ status (respond (fst (do_feedback 1000
               (PDict [(lit "message", PStr (lit "Nice guide"));
                       (lit "contact", PNone)])
               []))) = 500.
Proof.
  assert (A : acceptable [lit "message"]
    [(lit "message", PStr (lit "Nice guide")); (lit "contact", PNone)]).
  { apply (proj2 (proj1 (require_json_Done [lit "message"]
                           (PDict [(lit "message", PStr (lit "Nice guide"));
                                   (lit "contact", PNone)]) _) eq_refl)). }
  split; [exact A|].
  apply (feedback_not_a_string 1000 _ [] A).
  right. intros [s E]. discriminate E.
Defined.

(** ** Health route *)

(** X22. The health route reports [vertex_configured] as true exactly
    when a project is configured and the credential provider returns a
    non-empty token. Without a project it asks nobody and leaves the
    credential cache alone; with one it does what one call of the
    credential provider does, so it may fill the cache, and it issues
    at most one request. *)
Theorem healthz_probe (env : environ) (now : Z) (metadata : metadata_reply)
    (tc : token_cache) :
  dict_get (returned (healthz env now metadata tc))
           (lit "vertex_configured") PNone
  = PBool (opt_truthy (GOOGLE_CLOUD_PROJECT env)
           && py_truthy (returned (get_access_token env now metadata tc)))
  /\ (store_after (healthz env now metadata tc),
      issued (healthz env now metadata tc))
     = (if opt_truthy (GOOGLE_CLOUD_PROJECT env)
        then (store_after (get_access_token env now metadata tc),
              issued (get_access_token env now metadata tc))
        else (tc, []))
  /\ (List.length (issued (healthz env now metadata tc)) <= 1)%nat.
Proof.
  pose proof (get_access_token_one_request env now metadata tc) as L.
  unfold healthz.
  destruct (opt_truthy (GOOGLE_CLOUD_PROJECT env)).
  - destruct (get_access_token env now metadata tc) as [[token tc'] asked].
    split; [reflexivity|]. split; [reflexivity | exact L].
  - split; [reflexivity|]. split; [reflexivity | simpl; lia].
Qed.
